(** * Adaptive CSV dashboard ([app.py]): aggregation and paging pipeline

    A shallow embedding of the Streamlit script [app.py] and of the pandas
    operations it calls, followed by the properties of the filter engine, the
    KPIs, the grouped and paged aggregation and the time series.

    Conventions of the embedding.
    - Numbers are exact rationals in canonical form ([Qc]); equal numbers are
      equal terms, as they are for the values pandas stores.  Every int64
      and every finite float64 is such a number, and comparisons and maxima
      are those of the machine.  Sums and means are the exact ones: what
      is stated of a sum or a mean is stated for exact arithmetic, without
      the wrap-around of int64 and the rounding of float64.
    - A [DataFrame] is a header and a list of labelled rows.  A missing value
      (NaN, None, NaT) is the single cell [CNaN].
    - The script mutates one frame in place ([filtered_df[date_col] = ...])
      and otherwise rebinds names to fresh frames; frames therefore live in a
      heap and the script's variables hold references.
    - An exception of pandas, numpy or Streamlit ends the script run; it is
      the [Raise] result.
    - Widgets are sources of user-chosen values: what the session holds for
      them arrives in a [controls] record.
    - The order in which numpy's default sort leaves equal values is not
      fixed by the script; the sort is a parameter ([Quicksort]). *)

From Stdlib Require Import ZArith QArith Qcanon Qround Ascii String.
From stdpp Require Import base numbers list strings sorting.

Local Open Scope Z_scope.

(** ** Data model *)

(** A value stored in a frame. *)
Inductive cell :=
  | CNum (x : Qc)      (* int64 / float64 *)
  | CStr (s : string)  (* object (text) *)
  | CTime (t : Z)      (* datetime64[ns]: nanoseconds since the epoch *)
  | CNaN.              (* NaN / None / NaT *)

Global Instance cell_eq_dec : EqDecision cell.
Proof. solve_decision. Defined.

Record row := Row { label : nat; cells : list cell }.

Global Instance row_eq_dec : EqDecision row.
Proof. solve_decision. Defined.

Record DataFrame := Frame { columns : list string; rows : list row }.

Global Instance DataFrame_eq_dec : EqDecision DataFrame.
Proof. solve_decision. Defined.

(** Every row has one cell per column. *)
Definition well_formed (t : DataFrame) : Prop :=
  Forall (λ r, length (cells r) = length (columns t)) (rows t).

(** ** Exceptions and the script monad *)

Inductive exn :=
  | KeyError (c : string)
  | TypeError (msg : string)
  | ValueError (msg : string)
  | StreamlitAPIException (msg : string).

Global Instance exn_eq_dec : EqDecision exn.
Proof. solve_decision. Defined.

Inductive result (A : Type) :=
  | Ok (a : A)
  | Raise (e : exn).
Arguments Ok {A} a.
Arguments Raise {A} e.

Global Instance result_eq_dec `{EqDecision A} : EqDecision (result A).
Proof. solve_decision. Defined.

Definition rbind {A B} (r : result A) (k : A → result B) : result B :=
  match r with
  | Ok a => k a
  | Raise e => Raise e
  end.

(** Objects are addressed by allocation order. *)
Abbreviation heap := (list DataFrame).
Abbreviation ref := nat (only parsing).

Definition M (A : Type) : Type := heap → result (A * heap).

Definition ret {A} (a : A) : M A := λ h, Ok (a, h).
Definition raise {A} (e : exn) : M A := λ _, Raise e.
Definition bind {A B} (m : M A) (k : A → M B) : M B :=
  λ h, match m h with
       | Ok (a, h') => k a h'
       | Raise e => Raise e
       end.
Definition lift {A} (r : result A) : M A :=
  λ h, match r with Ok a => Ok (a, h) | Raise e => Raise e end.

Global Instance result_bind : MBind result := λ A B k r, rbind r k.
Global Instance result_ret : MRet result := λ A a, Ok a.
Global Instance M_bind : MBind M := λ A B k m, bind m k.
Global Instance M_ret : MRet M := λ A a, ret a.

Definition alloc (t : DataFrame) : M ref := λ h, Ok (length h, h ++ [t]).
Definition load (r : ref) : M DataFrame :=
  λ h, match h !! r with
       | Some t => Ok (t, h)
       | None => Raise (KeyError "dangling reference")
       end.
Definition store (r : ref) (t : DataFrame) : M unit :=
  λ h, Ok (tt, <[r := t]> h).

(** ** Frame operations *)

Fixpoint col_index (c : string) (cols : list string) : option nat :=
  match cols with
  | [] => None
  | c' :: cols' =>
      if String.eqb c c' then Some 0%nat else S <$> col_index c cols'
  end.

Definition cell_at (i : nat) (r : row) : cell := default CNaN (cells r !! i).

(** [t[c]]: the column named [c], top to bottom. *)
Definition column (t : DataFrame) (c : string) : result (list cell) :=
  match col_index c (columns t) with
  | Some i => Ok (cell_at i <$> rows t)
  | None => Raise (KeyError c)
  end.

Definition set_cell (i : nat) (r : row) (v : cell) : row :=
  Row (label r) (<[i := v]> (cells r)).

(** [t[c] = vals] on the frame value: an existing column is overwritten,
    a new name appends a column. *)
Definition assign_column (t : DataFrame) (c : string) (vals : list cell)
  : DataFrame :=
  match col_index c (columns t) with
  | Some i => Frame (columns t) (zip_with (set_cell i) (rows t) vals)
  | None =>
      Frame (columns t ++ [c])
        (zip_with (λ r v, Row (label r) (cells r ++ [v])) (rows t) vals)
  end.

Definition isna (v : cell) : bool :=
  match v with CNaN => true | _ => false end.

(** [t.empty]: an axis of length zero. *)
Definition empty (t : DataFrame) : bool :=
  match rows t, columns t with
  | [], _ | _, [] => true
  | _, _ => false
  end.

(** [df.copy()]: a new object with the same contents. *)
Definition copy (r : ref) : M ref :=
  (t ← load r; alloc t).

(** [df[c]] through a reference. *)
Definition getitem (r : ref) (c : string) : M (list cell) :=
  (t ← load r; lift (column t c)).

(** [df[c] = vals]: mutates the object [r] refers to. *)
Definition setitem (r : ref) (c : string) (vals : list cell) : M unit :=
  (t ← load r; store r (assign_column t c vals)).

(** [df.dropna(subset=[c])]: a new frame without the rows missing [c]. *)
Definition dropna (r : ref) (c : string) : M ref :=
  (t ← load r;
   match col_index c (columns t) with
   | Some i =>
       alloc (Frame (columns t)
                (filter (λ x, isna (cell_at i x) = false) (rows t)))
   | None => raise (KeyError c)
   end).

Fixpoint select {A} (l : list A) (mask : list bool) : list A :=
  match l, mask with
  | x :: l', b :: mask' => if b then x :: select l' mask' else select l' mask'
  | _, _ => []
  end.

(** [df[mask]]: a new frame with the rows whose mask entry is true. *)
Definition getitem_mask (r : ref) (mask : list bool) : M ref :=
  (t ← load r; alloc (Frame (columns t) (select (rows t) mask))).

(** ** Dates *)

Definition ns_per_day : Z := 86400000000000.

(** [Timestamp.date()]: the calendar day, as days since the epoch. *)
Definition date (t : Z) : Z := t / ns_per_day.

(** [Series.dt.date], cell by cell; NaT has no date. *)
Definition dt_date (v : cell) : option Z :=
  match v with
  | CTime t => Some (date t)
  | _ => None
  end.

Definition timestamp (v : cell) : option Z :=
  match v with
  | CTime t => Some t
  | _ => None
  end.

(** The part of [pd.to_datetime(col, errors="coerce")] that reads text and
    numbers is a parameter of the development: it may look at the whole
    column (pandas infers one format for it), and yields one timestamp or
    NaT ([None]) per entry. *)
Record DateParser := {
  parse : list cell → list (option Z);
  parse_length : ∀ col, length (parse col) = length col
}.

Definition is_datetime (v : cell) : bool :=
  match v with
  | CTime _ | CNaN => true
  | _ => false
  end.

(** [pd.to_datetime(col, errors="coerce")]: a column that already holds
    timestamps is returned as it is; anything else goes through the parser,
    failures becoming NaT. *)
Definition to_datetime (P : DateParser) (col : list cell) : list cell :=
  if forallb is_datetime col then col
  else from_option CTime CNaN <$> parse P col.

(** [Series.min()] and [Series.max()] of a datetime column without NaT.  The
    script takes them of a non-empty frame only. *)
Definition series_min (ts : list Z) : Z :=
  match ts with
  | [] => 0
  | t :: ts' => foldl Z.min t ts'
  end.

Definition series_max (ts : list Z) : Z :=
  match ts with
  | [] => 0
  | t :: ts' => foldl Z.max t ts'
  end.

(** [st.sidebar.date_input(..., value=(min_date, max_date), ...)]: the pair
    the user picked, or the default [value] when the widget was not touched. *)
Definition date_input (value : Z * Z) (choice : option (Z * Z)) : Z * Z :=
  default value choice.

(** Row mask [(d >= start_date) & (d <= end_date)]; a comparison with a
    missing date is false. *)
Definition in_range (start_date end_date : Z) (v : cell) : bool :=
  match dt_date v with
  | Some d => (start_date <=? d) && (d <=? end_date)
  | None => false
  end.

(** ** Filter engine (lines 63-88) *)

Definition filtered_df (P : DateParser) (df : ref) (date_col : string)
    (date_range : option (Z * Z)) : M ref :=
  fd ← copy df;
  if negb (String.eqb date_col "None") then
    col ← getitem fd date_col;
    setitem fd date_col (to_datetime P col);;
    fd ← dropna fd date_col;
    t ← load fd;
    if negb (empty t) then
      col ← getitem fd date_col;
      let min_date := date (series_min (omap timestamp col)) in
      let max_date := date (series_max (omap timestamp col)) in
      let '(start_date, end_date) :=
        date_input (min_date, max_date) date_range in
      getitem_mask fd (in_range start_date end_date <$> col)
    else mret fd
  else mret fd.

(** ** Numeric columns and KPIs (lines 38-42, 94-100) *)

Definition is_number (v : cell) : bool :=
  match v with
  | CNum _ | CNaN => true
  | _ => false
  end.

Definition number (v : cell) : option Qc :=
  match v with
  | CNum x => Some x
  | _ => None
  end.

(** A column has a number dtype when it is parsed from at least one line and
    holds numbers and gaps only. *)
Definition is_numeric (t : DataFrame) (c : string) : bool :=
  match column t c with
  | Ok col => negb (bool_decide (col = [])) && forallb is_number col
  | Raise _ => false
  end.

(** [df.select_dtypes(include="number").columns.tolist()] *)
Definition numeric_cols (t : DataFrame) : list string :=
  filter (λ c, is_numeric t c = true) (columns t).

(** The values of a column as numbers, as the reductions and the summing
    groupby read them.  The metric selectbox offers number columns only, so
    the one way to meet anything else is a metric column that was overwritten
    with timestamps (date column = metric column); [Series.sum()] of a
    datetime column raises. *)
Definition values (col : list cell) : result (list (option Qc)) :=
  if forallb is_number col then Ok (number <$> col)
  else Raise (TypeError "dtype does not support reduction 'sum'").

(** [Series.sum()], [Series.mean()], [Series.max()] with the default
    [skipna=True]; [None] is NaN.  Sum and mean are the exact sum and
    quotient of the values that are present; the maximum is the machine's. *)
Definition nansum (xs : list (option Qc)) : Qc :=
  foldr (λ o acc, match o with Some x => (x + acc)%Qc | None => acc end)
        0%Qc xs.

Definition count (xs : list (option Qc)) : nat := length (omap id xs).

Definition nanmean (xs : list (option Qc)) : option Qc :=
  if bool_decide (count xs = 0%nat) then None
  else Some (nansum xs / Qc_of_Z (Z.of_nat (count xs)))%Qc.

Definition Qcmax (x y : Qc) : Qc := if decide (x ≤ y)%Qc then y else x.

Definition nanmax (xs : list (option Qc)) : option Qc :=
  match omap id xs with
  | [] => None
  | x :: xs' => Some (foldl Qcmax x xs')
  end.

Record kpis := Kpis {
  kpi_total : Qc;
  kpi_average : option Qc;
  kpi_max : option Qc
}.

Global Instance kpis_eq_dec : EqDecision kpis.
Proof. solve_decision. Defined.

Definition key_metrics (t : DataFrame) (value_col : string) : result kpis :=
  col ← column t value_col;
  xs ← values col;
  mret (Kpis (nansum xs) (nanmean xs) (nanmax xs)).

(** ** Grouping (groupby ... sum) *)

(** [groupby(keys, sort=True)[...].sum()]: one entry per distinct key, keys
    in ascending order, each with the sum of its rows' values. *)
Definition groupby_sum {K} `{EqDecision K} (sort_keys : list K → list K)
    (pairs : list (K * option Qc)) : list (K * Qc) :=
  (λ k, (k, nansum ((filter (λ p, p.1 = k) pairs).*2)))
    <$> sort_keys (remove_dups (pairs.*1)).

(** Order of group keys.  Columns are homogeneous, so only the order within
    one kind of value matters, and that missing keys come last. *)
Definition cell_rank (v : cell) : nat :=
  match v with
  | CNum _ => 0
  | CTime _ => 1
  | CStr _ => 2
  | CNaN => 3
  end.

Definition cell_le (a b : cell) : Prop :=
  match a, b with
  | CNum x, CNum y => (x ≤ y)%Qc
  | CTime s, CTime t => s ≤ t
  | CStr s, CStr t => String.le s t
  | _, _ => (cell_rank a ≤ cell_rank b)%nat
  end.

Global Instance cell_le_dec : RelDecision cell_le.
Proof. intros [] []; simpl; apply _. Defined.

(** [Series.reset_index()]: the index becomes a column in front of the
    values; pandas refuses to insert a column whose name is taken. *)
Definition reset_index {K} (index_name name : string) (s : list (K * Qc))
  : result (list (K * Qc)) :=
  if String.eqb index_name name
  then Raise (ValueError ("cannot insert " +:+ index_name +:+ ", already exists"))
  else Ok s.

(** ** Sorting by value *)

Section insertion_sort.
Context {A : Type} (R : relation A) `{∀ x y, Decision (R x y)}.

Fixpoint insert_sorted (x : A) (l : list A) : list A :=
  match l with
  | [] => [x]
  | y :: l' => if decide (R x y) then x :: l else y :: insert_sorted x l'
  end.

(** Ascending and stable: equal elements keep their order. *)
Definition insertion_sort (l : list A) : list A := foldr insert_sorted [] l.
End insertion_sort.

Definition by_value {K} (a b : K * Qc) : Prop := (a.2 ≤ b.2)%Qc.

Global Instance by_value_dec {K} : RelDecision (@by_value K).
Proof. intros a b. unfold by_value. apply _. Defined.

(** numpy's default sort ([kind="quicksort"]): ascending by value and not
    stable.  Where it leaves rows of equal value depends on the build of
    numpy and on the length of the array, so the sort is a parameter of the
    development: any function that returns the rows it was given in
    ascending order of their values. *)
Record Quicksort := {
  quicksort : ∀ K : Type, list (K * Qc) → list (K * Qc);
  quicksort_Permutation : ∀ K (l : list (K * Qc)), quicksort K l ≡ₚ l;
  quicksort_sorted :
    ∀ K (l : list (K * Qc)), StronglySorted by_value (quicksort K l)
}.

(** [frame.sort_values(value_col, ascending=False)] with the default
    [kind="quicksort"]: pandas sorts the reversed values ascending and
    reverses the outcome. *)
Definition sort_values {K} (qs : Quicksort) (frame : list (K * Qc))
  : list (K * Qc) :=
  reverse (quicksort qs K (reverse frame)).

(** ** Time series and grouped bars (lines 114-119, 141-147) *)

Definition ts_df (t : DataFrame) (date_col value_col : string)
  : result (list (Z * Qc)) :=
  dcol ← column t date_col;
  vcol ← column t value_col;
  xs ← values vcol;
  (* the default dropna=True leaves out rows without a key *)
  let pairs := omap (λ p, (λ d, (d, p.2)) <$> dt_date p.1) (zip dcol xs) in
  reset_index date_col value_col (groupby_sum (merge_sort Z.le) pairs).

(** [filtered_df.groupby(group_col, dropna=False)[value_col].sum()]: the
    series of group totals; the missing key is a group of its own. *)
Definition grouped_sum (t : DataFrame) (group_col value_col : string)
  : result (list (cell * Qc)) :=
  gcol ← column t group_col;
  vcol ← column t value_col;
  xs ← values vcol;
  mret (groupby_sum (merge_sort cell_le) (zip gcol xs)).

Definition bar_df (qs : Quicksort) (t : DataFrame)
    (group_col value_col : string) : result (list (cell * Qc)) :=
  s ← grouped_sum t group_col value_col;
  frame ← reset_index group_col value_col s;
  mret (sort_values qs frame).

(** ** Paging (lines 160-171) *)

(** [(len(bar_df) - 1) // bars_per_page + 1]; [//] and [Z.div] both round
    down.  The divisor is the value of a slider over 5, 10, ..., 40. *)
Definition total_pages (len : nat) (bars_per_page : Z) : Z :=
  (Z.of_nat len - 1) / bars_per_page + 1.

(** [l[start:stop]] with Python's treatment of negative and oversized
    bounds. *)
Definition iloc {A} (l : list A) (start stop : Z) : list A :=
  let n := Z.of_nat (length l) in
  let clip i := if i <? 0 then Z.max (i + n) 0 else Z.min i n in
  take (Z.to_nat (clip stop - clip start)) (drop (Z.to_nat (clip start)) l).

Definition page_df {A} (bar : list A) (bars_per_page page : Z) : list A :=
  let start := (page - 1) * bars_per_page in
  let end_ := start + bars_per_page in
  iloc bar start end_.

(** ** The panels and one pass of the script *)

(** What the session holds for the widgets.  The select boxes keep
    [value_col] among [numeric_cols], [group_col] among the columns and
    [date_col] among "None" and the columns; the script itself checks none
    of this.  [bars_per_page] and [page] are the handles of the two sliders,
    which [slider] below keeps within the bounds the script passes. *)
Record controls := Controls {
  value_col : string;               (* "Metric Column" *)
  group_col : string;               (* "Group By Column" *)
  date_col : string;                (* "Date Column (optional)" *)
  date_range : option (Z * Z);      (* "Select date range" *)
  bars_per_page : Z;                (* "Bars per view" *)
  page : Z                          (* "Page" *)
}.

(** [st.slider(label, min_value=, max_value=, value=, step=)].  Streamlit
    raises unless [min_value] is below [max_value].  Otherwise the call
    returns the position of the handle, one of [min_value],
    [min_value + step], ... up to [max_value]: no other position can be
    chosen, and a slider the session holds no such position for (it is new,
    or the script passes other bounds than before) stands at [value]. *)
Definition slider (min_value max_value value step handle : Z) : result Z :=
  if max_value <=? min_value then
    Raise (StreamlitAPIException
             "Slider `min_value` must be less than the `max_value`.")
  else if (min_value <=? handle) && (handle <=? max_value)
          && ((handle - min_value) mod step =? 0)
  then Ok handle
  else Ok value.

Inductive notice :=
  | Info (msg : string)
  | Warning (msg : string)
  | Error (msg : string).

Global Instance notice_eq_dec : EqDecision notice.
Proof. solve_decision. Defined.

Inductive series_panel :=
  | SeriesNotice (n : notice)
  | SeriesPlot (points : list (Z * Qc)).

Global Instance series_panel_eq_dec : EqDecision series_panel.
Proof. solve_decision. Defined.

Inductive bar_panel :=
  | BarNotice (n : notice)
  | BarPlot (bars : list (cell * Qc)) (shown total : Z).

Global Instance bar_panel_eq_dec : EqDecision bar_panel.
Proof. solve_decision. Defined.

Record dashboard := Dashboard {
  metrics : kpis;
  time_series : series_panel;
  grouped_bar : bar_panel;
  distribution : list (option Qc)
}.

Global Instance dashboard_eq_dec : EqDecision dashboard.
Proof. solve_decision. Defined.

Inductive outcome :=
  | Prompt (n : notice)       (* nothing uploaded *)
  | Stopped (n : notice)      (* a message followed by st.stop() *)
  | Crashed (e : exn)         (* an uncaught exception *)
  | Rendered (d : dashboard).

Global Instance outcome_eq_dec : EqDecision outcome.
Proof. solve_decision. Defined.

Definition time_series_panel (t : DataFrame) (ui : controls)
  : result series_panel :=
  if String.eqb (date_col ui) "None" then
    mret (SeriesNotice (Info "Select a date column to view time series."))
  else
    ts ← ts_df t (date_col ui) (value_col ui);
    if (length ts <? 2)%nat then
      mret (SeriesNotice (Warning "Not enough data for time series."))
    else mret (SeriesPlot ts).

(** Lines 141-171: the bar frame, the two sliders and the page. *)
Definition grouped_bar_panel (qs : Quicksort) (t : DataFrame) (ui : controls)
  : result bar_panel :=
  bar ← bar_df qs t (group_col ui) (value_col ui);
  if bool_decide (bar = []) then
    mret (BarNotice (Warning "No data to display."))
  else
    per_page ← slider 5 40 15 5 (bars_per_page ui);
    let pages := total_pages (length bar) per_page in
    shown ← slider 1 pages 1 1 (page ui);
    mret (BarPlot (page_df bar per_page shown) shown pages).

(** [ax3.hist(filtered_df[value_col], bins=10)]: matplotlib leaves the gaps
    out when it looks for the range of the bins; in a column of gaps only it
    finds none, and numpy raises. *)
Definition hist (xs : list (option Qc)) : result (list (option Qc)) :=
  if bool_decide (xs ≠ [] ∧ omap id xs = []) then
    Raise (ValueError "autodetected range of [nan, nan] is not finite")
  else Ok xs.

Definition distribution_panel (t : DataFrame) (ui : controls)
  : result (list (option Qc)) :=
  col ← column t (value_col ui);
  xs ← values col;
  hist xs.

(** Lines 94-199, on the filtered frame. *)
Definition panels (qs : Quicksort) (t : DataFrame) (ui : controls)
  : result dashboard :=
  k ← key_metrics t (value_col ui);
  s ← time_series_panel t ui;
  b ← grouped_bar_panel qs t ui;
  d ← distribution_panel t ui;
  mret (Dashboard k s b d).

(** Lines 37-199, with the uploaded frame at [df]. *)
Definition script (P : DateParser) (qs : Quicksort) (ui : controls) (df : ref)
  : M outcome :=
  t0 ← load df;
  if bool_decide (numeric_cols t0 = []) then
    mret (Stopped (Error "No numeric columns found in this CSV."))
  else
    fd ← filtered_df P df (date_col ui) (date_range ui);
    t ← load fd;
    if empty t then
      mret (Stopped (Warning "No data available after filtering."))
    else
      d ← lift (panels qs t ui);
      mret (Rendered d).

(** One rendering pass: the uploaded file, if any, and the state of the
    widgets. *)
Definition app (P : DateParser) (qs : Quicksort) (file : option DataFrame)
    (ui : controls) : outcome :=
  match file with
  | None => Prompt (Info "Upload a CSV file to get started.")
  | Some table =>
      match script P qs ui 0%nat [table] with
      | Ok (o, _) => o
      | Raise e => Crashed e
      end
  end.

(** ** Column names (lines 25-31) *)

(** A Python [str], as its code points. *)
Abbreviation pystr := (list N).

(** [str.isspace] of one character: the characters [str.strip()] removes. *)
Definition isspace (c : N) : bool :=
  ((9 <=? c) && (c <=? 13) || (28 <=? c) && (c <=? 32) ||
   (c =? 133) || (c =? 160) || (c =? 5760) ||
   (8192 <=? c) && (c <=? 8202) ||
   (c =? 8232) || (c =? 8233) || (c =? 8239) || (c =? 8287) ||
   (c =? 12288))%N.

(** [s.replace("\xa0", " ")]: every no-break space becomes a space. *)
Definition replace_nbsp (s : pystr) : pystr :=
  (λ c, if (c =? 160)%N then 32%N else c) <$> s.

Fixpoint lstrip (s : pystr) : pystr :=
  match s with
  | [] => []
  | c :: s' => if isspace c then lstrip s' else s
  end.

Definition rstrip (s : pystr) : pystr := reverse (lstrip (reverse s)).

(** [s.strip()] *)
Definition strip (s : pystr) : pystr := lstrip (rstrip s).

(** One header through [.str.replace("\xa0", " ", regex=False).str.strip()]. *)
Definition clean_name (s : pystr) : pystr := strip (replace_nbsp s).

(** Lines 26-31: the header the script assigns to [df.columns]. *)
Definition clean_columns (names : list pystr) : list pystr :=
  clean_name <$> names.

(** The code points of a Latin-1 text, for the examples. *)
Definition codes (s : string) : pystr :=
  N_of_ascii <$> list_ascii_of_string s.

(** ** A date parser for the worked examples

    Reads ISO calendar dates ([YYYY-MM-DD]) and whole nanosecond counts;
    everything else is NaT.  The general results below hold for every
    [DateParser]. *)

Definition digit (a : ascii) : option Z :=
  let n := Z.of_N (N_of_ascii a) in
  if (48 <=? n) && (n <=? 57) then Some (n - 48) else None.

Definition days_in_month (y m : Z) : Z :=
  if bool_decide (m = 2) then
    if bool_decide (y mod 4 = 0 ∧ (y mod 100 ≠ 0 ∨ y mod 400 = 0))
    then 29 else 28
  else if bool_decide (m = 4 ∨ m = 6 ∨ m = 9 ∨ m = 11) then 30 else 31.

(** Days since 1970-01-01 of a civil date. *)
Definition days_from_civil (y m d : Z) : Z :=
  let y' := if m <=? 2 then y - 1 else y in
  let era := y' / 400 in
  let yoe := y' - era * 400 in
  let mp := (m + 9) mod 12 in
  let doy := (153 * mp + 2) / 5 + d - 1 in
  let doe := yoe * 365 + yoe / 4 - yoe / 100 + doy in
  era * 146097 + doe - 719468.

Definition parse_iso (s : string) : option Z :=
  match s with
  | String y1 (String y2 (String y3 (String y4 (String "-"
      (String m1 (String m2 (String "-"
        (String d1 (String d2 EmptyString))))))))) =>
      a ← digit y1; b ← digit y2; c ← digit y3; d ← digit y4;
      e ← digit m1; f ← digit m2; g ← digit d1; h ← digit d2;
      let y := 1000 * a + 100 * b + 10 * c + d in
      let m := 10 * e + f in
      let dd := 10 * g + h in
      if (1 <=? m) && (m <=? 12) && (1 <=? dd) && (dd <=? days_in_month y m)
      then Some (days_from_civil y m dd * ns_per_day)
      else None
  | _ => None
  end.

Definition parse_cell (v : cell) : option Z :=
  match v with
  | CStr s => parse_iso s
  | CTime t => Some t
  | CNum x => Some (Qfloor x)
  | CNaN => None
  end.

Definition iso_parser : DateParser :=
  {| parse := fmap parse_cell;
     parse_length := λ col, length_fmap parse_cell col |}.

(** ** Two sorts for the worked examples

    Insertion sort, which is what numpy's quicksort does to a short array
    when it is not handed to a vector unit, keeps rows of equal value in
    the order they came in; the second sort turns them round.  The general
    results below hold for every [Quicksort]. *)

Section insertion_sort_props.
Context {A : Type} (R : relation A) `{∀ x y, Decision (R x y)}.

Lemma insert_sorted_Permutation x l : insert_sorted R x l ≡ₚ x :: l.
Proof.
  induction l as [|y l IH]; [done|]. simpl.
  destruct (decide (R x y)); [done|].
  rewrite IH. apply Permutation_swap.
Qed.

Lemma insertion_sort_Permutation l : insertion_sort R l ≡ₚ l.
Proof.
  induction l as [|x l IH]; [done|]. simpl.
  by rewrite insert_sorted_Permutation, IH.
Qed.

Lemma insert_sorted_StronglySorted `{!Total R, !Transitive R} x l :
  StronglySorted R l → StronglySorted R (insert_sorted R x l).
Proof.
  induction 1 as [|y l Hl IH Hy]; simpl.
  { repeat constructor. }
  destruct (decide (R x y)) as [Hxy|Hxy].
  - constructor; [by constructor|].
    constructor; [done|].
    eapply Forall_impl; [exact Hy|]. intros z Hz. by trans y.
  - constructor; [done|].
    rewrite insert_sorted_Permutation. constructor; [|done].
    by destruct (total R x y).
Qed.

Lemma insertion_sort_StronglySorted `{!Total R, !Transitive R} l :
  StronglySorted R (insertion_sort R l).
Proof.
  induction l as [|x l IH]; simpl; [constructor|].
  by apply insert_sorted_StronglySorted.
Qed.

End insertion_sort_props.

Lemma StronglySorted_reverse {A} (R : relation A) l :
  StronglySorted R l → StronglySorted (flip R) (reverse l).
Proof.
  induction 1 as [|x l Hl IH Hx]; [constructor|].
  rewrite reverse_cons. apply StronglySorted_app_2; [|done|repeat constructor].
  intros a b Ha ->%list_elem_of_singleton. unfold flip.
  rewrite Forall_forall in Hx. apply Hx. by apply elem_of_reverse.
Qed.

Global Instance by_value_total {K} : Total (@by_value K).
Proof. intros a b. apply (total Qcle). Qed.

Global Instance by_value_trans {K} : Transitive (@by_value K).
Proof. intros a b c. apply (transitivity (R := Qcle)). Qed.


Global Instance flip_by_value_total {K} : Total (flip (@by_value K)).
Proof. intros a b. destruct (total by_value a b); auto. Qed.

Global Instance flip_by_value_trans {K} : Transitive (flip (@by_value K)).
Proof. intros a b c Hab Hbc. exact (transitivity (R := by_value) Hbc Hab). Qed.

Definition stable_sort : Quicksort :=
  {| quicksort := λ K, insertion_sort by_value;
     quicksort_Permutation := λ K, insertion_sort_Permutation by_value;
     quicksort_sorted := λ K, insertion_sort_StronglySorted by_value |}.

Definition reversing_sort : Quicksort :=
  {| quicksort := λ K l, reverse (insertion_sort (flip by_value) l);
     quicksort_Permutation := λ K l,
       transitivity (reverse_Permutation _)
         (insertion_sort_Permutation (flip by_value) l);
     quicksort_sorted := λ K l,
       StronglySorted_reverse (flip by_value) _
         (insertion_sort_StronglySorted (flip by_value) l) |}.

(** ** Frames for the worked examples *)

Definition num (z : Z) : cell := CNum (Qc_of_Z z).

(** Three sales on two days. *)
Definition sales : DataFrame :=
  Frame ["date"; "region"; "amount"]
    [Row 0 [CStr "2024-01-01"; CStr "east"; num 10];
     Row 1 [CStr "2024-01-01"; CStr "west"; num 5];
     Row 2 [CStr "2024-01-02"; CStr "east"; num 7]].

(** Sales with a date that does not parse and a gap of days. *)
Definition sparse : DataFrame :=
  Frame ["date"; "region"; "amount"]
    [Row 0 [CStr "2024-01-01"; CStr "east"; num 10];
     Row 1 [CStr "unknown"; CStr "west"; num 5];
     Row 2 [CStr "2024-01-10"; CStr "east"; num 7]].

(** No date parses. *)
Definition undated : DataFrame :=
  Frame ["date"; "region"; "amount"]
    [Row 0 [CStr "soon"; CStr "east"; num 10];
     Row 1 [CStr "n/a"; CStr "west"; num 5]].

(** The metric is missing on every row. *)
Definition gaps : DataFrame :=
  Frame ["region"; "amount"]
    [Row 0 [CStr "east"; CNaN];
     Row 1 [CStr "west"; CNaN]].

(** Two regions with equal totals; "west" is met first. *)
Definition tied : DataFrame :=
  Frame ["region"; "amount"]
    [Row 0 [CStr "west"; num 5];
     Row 1 [CStr "east"; num 5]].

(** The rows of [tied] the other way round: "east" is met first. *)
Definition tied_swapped : DataFrame :=
  Frame ["region"; "amount"]
    [Row 0 [CStr "east"; num 5];
     Row 1 [CStr "west"; num 5]].

(** Timestamps with a time of day: 2024-01-01 01:00, 2024-01-01 23:59:59 and
    2024-01-02 00:00:00.000000001. *)
Definition timed : DataFrame :=
  Frame ["when"; "amount"]
    [Row 0 [CTime 1704070800000000000; num 10];
     Row 1 [CTime 1704153599000000000; num 5];
     Row 2 [CTime 1704153600000000001; num 7]].

(** Twelve groups, "a" the largest. *)
Definition twelve : DataFrame :=
  Frame ["item"; "qty"]
    (imap (λ k s, Row k [CStr s; num (12 - Z.of_nat k)])
       ["a"; "b"; "c"; "d"; "e"; "f"; "g"; "h"; "i"; "j"; "k"; "l"]%string).

(** The twelve keys of [twelve]. *)
Definition letters : list string :=
  ["a"; "b"; "c"; "d"; "e"; "f"; "g"; "h"; "i"; "j"; "k"; "l"].

Definition jan_1 : Z := 19723 * ns_per_day.   (* 2024-01-01 *)
Definition jan_2 : Z := 19724 * ns_per_day.   (* 2024-01-02 *)
Definition jan_10 : Z := 19732 * ns_per_day.  (* 2024-01-10 *)

(** [sales] after the filter engine, over the whole range and over the first
    day only; [sparse] after the filter engine over the whole range. *)
Definition sales_filtered : DataFrame :=
  Frame ["date"; "region"; "amount"]
    [Row 0 [CTime jan_1; CStr "east"; num 10];
     Row 1 [CTime jan_1; CStr "west"; num 5];
     Row 2 [CTime jan_2; CStr "east"; num 7]].

Definition sales_first_day : DataFrame :=
  Frame ["date"; "region"; "amount"]
    [Row 0 [CTime jan_1; CStr "east"; num 10];
     Row 1 [CTime jan_1; CStr "west"; num 5]].

Definition sparse_filtered : DataFrame :=
  Frame ["date"; "region"; "amount"]
    [Row 0 [CTime jan_1; CStr "east"; num 10];
     Row 2 [CTime jan_10; CStr "east"; num 7]].

(** The KPIs of [sales] and of [tied], and a sidebar state that restricts
    [sales] to its first day. *)
Definition sales_kpis : kpis :=
  Kpis (Qc_of_Z 22) (Some (Q2Qc (22 # 3))) (Some (Qc_of_Z 10)).

Definition tied_kpis : kpis :=
  Kpis (Qc_of_Z 10) (Some (Qc_of_Z 5)) (Some (Qc_of_Z 5)).


(** ** Notions used in the statements *)

(** The frames one run of the filter engine allocates on top of the heap, in
    order: the copy (after the date column was overwritten), the frame
    without unparsed rows, the frame within the date range.  The engine
    returns a reference to the last one (lemma [filtered_df_frames]). *)
Definition frames (P : DateParser) (t : DataFrame) (dc : string)
    (rng : option (Z * Z)) : result (list DataFrame) :=
  if negb (String.eqb dc "None") then
    match col_index dc (columns t) with
    | None => Raise (KeyError dc)
    | Some i =>
        let t1 := assign_column t dc (to_datetime P (cell_at i <$> rows t)) in
        let t2 := Frame (columns t1)
                    (filter (λ x, isna (cell_at i x) = false) (rows t1)) in
        if negb (empty t2) then
          let col := cell_at i <$> rows t2 in
          let '(start_date, end_date) :=
            date_input (date (series_min (omap timestamp col)),
                        date (series_max (omap timestamp col))) rng in
          Ok [t1; t2;
              Frame (columns t2)
                (select (rows t2) (in_range start_date end_date <$> col))]
        else Ok [t1; t2]
    end
  else Ok [t].

(** The filter engine as a function from frame to frame: run it on a heap
    that holds the input only and read the frame it returns. *)
Definition filter_table (P : DateParser) (t : DataFrame) (dc : string)
    (rng : option (Z * Z)) : result DataFrame :=
  match filtered_df P 0%nat dc rng [t] with
  | Ok (r, h) =>
      match h !! r with
      | Some t' => Ok t'
      | None => Raise (KeyError "dangling reference")
      end
  | Raise e => Raise e
  end.

(** Rows [a, b) of a list. *)
Definition rows_between {A} (l : list A) (a b : Z) : list A :=
  take (Z.to_nat (b - a)) (drop (Z.to_nat a) l).

(** The total of one key over key/value pairs, and the sum of a list of
    numbers. *)
Definition group_total {K} `{EqDecision K} (pairs : list (K * option Qc))
    (k : K) : Qc :=
  nansum ((filter (λ p, p.1 = k) pairs).*2).

Definition Qcsum (l : list Qc) : Qc := foldr Qcplus 0%Qc l.

(** A timestamp falls on day [d], counted from the epoch, when it lies
    within the 86400 * 10^9 nanoseconds of that day, at whatever time; a
    missing value falls on no day. *)
Definition on_day (d : Z) (v : cell) : bool :=
  match v with
  | CTime t =>
      (d * 86400000000000 <=? t) && (t <? (d + 1) * 86400000000000)
  | _ => false
  end.

(** The distinct calendar dates of a date column. *)
Definition distinct_dates (t : DataFrame) (dc : string) : list Z :=
  match column t dc with
  | Ok col => remove_dups (omap dt_date col)
  | Raise _ => []
  end.

(** The tie-break of the specification: of two entries of the bar frame
    with equal sums, the one whose key is met first in the group column
    comes first. *)
Definition first_seen (keys : list cell) (k : cell) : option nat :=
  fst <$> list_find (λ x, x = k) keys.

Definition ties_by_first_seen (keys : list cell) (bar : list (cell * Qc))
  : Prop :=
  ∀ a b k1 k2 s p q,
    bar !! a = Some (k1, s) → bar !! b = Some (k2, s) →
    first_seen keys k1 = Some p → first_seen keys k2 = Some q →
    (p < q)%nat → (a < b)%nat.

(** * Properties *)

(** ** The filter engine *)

Lemma assign_column_columns t c vals i :
  col_index c (columns t) = Some i →
  columns (assign_column t c vals) = columns t.
Proof. intros Hi. unfold assign_column. by rewrite Hi. Qed.

Lemma filtered_df_frames P df dc rng h t :
  h !! df = Some t →
  filtered_df P df dc rng h =
    match frames P t dc rng with
    | Ok fs => Ok ((length h + length fs - 1)%nat, h ++ fs)
    | Raise e => Raise e
    end.
Proof.
  intros Hdf.
  unfold filtered_df, frames, copy, getitem, setitem, dropna, getitem_mask.
  unfold mbind, M_bind, bind, mret, M_ret, ret, load, alloc, store, lift, raise.
  rewrite Hdf. simpl.
  destruct (String.eqb dc "None"); simpl.
  { do 2 f_equal. lia. }
  rewrite lookup_app_r by lia. rewrite Nat.sub_diag. simpl.
  unfold column.
  destruct (col_index dc (columns t)) as [i|] eqn:Hi; [|done].
  rewrite lookup_app_r by lia. rewrite Nat.sub_diag. simpl.
  rewrite insert_app_r_alt by lia. rewrite Nat.sub_diag. simpl.
  rewrite lookup_app_r by lia. rewrite Nat.sub_diag. simpl.
  rewrite (assign_column_columns _ _ _ i Hi). rewrite Hi.
  rewrite length_app. simpl.
  set (t1 := assign_column t dc _).
  set (t2 := Frame _ _).
  rewrite lookup_app_r by (rewrite length_app; simpl; lia).
  rewrite length_app. simpl.
  replace (length h + 1 - (length h + 1))%nat with 0%nat by lia.
  simpl.
  destruct (empty t2); simpl.
  { rewrite <- app_assoc. simpl. do 2 f_equal. lia. }
  rewrite lookup_app_r by (rewrite length_app; simpl; lia).
  rewrite length_app. simpl.
  replace (length h + 1 - (length h + 1))%nat with 0%nat by lia.
  simpl. rewrite Hi.
  destruct (date_input _ _) as [s e].
  rewrite lookup_app_r by (rewrite length_app; simpl; lia).
  rewrite length_app. simpl.
  replace (length h + 1 - (length h + 1))%nat with 0%nat by lia.
  simpl. rewrite !length_app. simpl. rewrite <- !app_assoc. simpl.
  do 2 f_equal. lia.
Qed.
Lemma select_fmap {A} (f : A → bool) (l : list A) :
  select l (f <$> l) = filter (λ x, f x = true) l.
Proof.
  induction l as [|x l IH]; [done|]. csimpl. rewrite filter_cons.
  destruct (f x) eqn:Hf; rewrite IH; destruct (decide _); congruence.
Qed.

Lemma to_datetime_is_datetime P col :
  Forall (λ v, is_datetime v = true) (to_datetime P col).
Proof.
  unfold to_datetime. destruct (forallb is_datetime col) eqn:Hall.
  - apply Forall_forall. intros v Hv. rewrite forallb_forall in Hall.
    apply Hall. by apply list_elem_of_In.
  - apply Forall_fmap. apply Forall_forall. by intros [t|] _.
Qed.

Lemma to_datetime_length P col : length (to_datetime P col) = length col.
Proof.
  unfold to_datetime. destruct (forallb is_datetime col); [done|].
  by rewrite length_fmap, parse_length.
Qed.

(** Overwriting the date column keeps every row: the parser answers for
    each entry. *)
Lemma parsed_rows_length P t c i :
  col_index c (columns t) = Some i →
  length (rows (assign_column t c (to_datetime P (cell_at i <$> rows t))))
    = length (rows t).
Proof.
  intros Hi. unfold assign_column. rewrite Hi. cbn [rows].
  rewrite length_zip_with, to_datetime_length, length_fmap. lia.
Qed.

Lemma set_cell_id i r : set_cell i r (cell_at i r) = r.
Proof.
  destruct r as [l cs]. unfold set_cell, cell_at. simpl. f_equal.
  destruct (cs !! i) as [v|] eqn:Hv; simpl.
  - by apply list_insert_id.
  - apply list_insert_ge. by apply lookup_ge_None.
Qed.

Lemma zip_with_set_cell_id i (rs : list row) :
  zip_with (set_cell i) rs (cell_at i <$> rs) = rs.
Proof.
  induction rs as [|r rs IH]; [done|]. csimpl. by rewrite set_cell_id, IH.
Qed.

Lemma filter_all {A} (P : A → Prop) `{∀ x, Decision (P x)} (l : list A) :
  Forall P l → filter P l = l.
Proof.
  induction 1 as [|x l Hx _ IH]; [done|]. by rewrite filter_cons_True, IH.
Qed.

Lemma series_min_le ts t : t ∈ ts → series_min ts ≤ t.
Proof.
  destruct ts as [|t0 ts]; [by intros ?%elem_of_nil|]. simpl.
  assert (∀ l a, foldl Z.min a l ≤ a ∧ ∀ x, x ∈ l → foldl Z.min a l ≤ x) as Hf.
  { induction l as [|y l IH]; intros a; simpl.
    - split; [lia|]. by intros x ?%elem_of_nil.
    - destruct (IH (Z.min a y)) as [H1 H2]. split; [lia|].
      intros x [->|Hx]%elem_of_cons; [lia|]. by apply H2. }
  destruct (Hf ts t0) as [H1 H2].
  intros [->|Hx]%elem_of_cons; [done|]. by apply H2.
Qed.

Lemma series_max_ge ts t : t ∈ ts → t ≤ series_max ts.
Proof.
  destruct ts as [|t0 ts]; [by intros ?%elem_of_nil|]. simpl.
  assert (∀ l a, a ≤ foldl Z.max a l ∧ ∀ x, x ∈ l → x ≤ foldl Z.max a l) as Hf.
  { induction l as [|y l IH]; intros a; simpl.
    - split; [lia|]. by intros x ?%elem_of_nil.
    - destruct (IH (Z.max a y)) as [H1 H2]. split; [lia|].
      intros x [->|Hx]%elem_of_cons; [lia|]. by apply H2. }
  destruct (Hf ts t0) as [H1 H2].
  intros [->|Hx]%elem_of_cons; [done|]. by apply H2.
Qed.

Lemma date_mono s t : s ≤ t → date s ≤ date t.
Proof. intros. unfold date. apply Z.div_le_mono; [done|]. done. Qed.

Lemma cell_at_set_cell_datetime i r v :
  is_datetime v = true → is_datetime (cell_at i (set_cell i r v)) = true.
Proof.
  intros Hv. unfold cell_at, set_cell. simpl.
  destruct (decide (i < length (cells r))%nat).
  - by rewrite list_lookup_insert_eq.
  - rewrite list_insert_ge by lia.
    rewrite (proj2 (lookup_ge_None (cells r) i)) by lia. done.
Qed.

(** The frame the engine returns is the last one it allocates. *)
Lemma filter_table_frames P t dc rng :
  filter_table P t dc rng =
    match frames P t dc rng with
    | Ok fs => Ok (default t (last fs))
    | Raise e => Raise e
    end.
Proof.
  unfold filter_table. rewrite (filtered_df_frames P 0%nat dc rng [t] t) by done.
  unfold frames.
  destruct (negb _); [|done].
  destruct (col_index _ _); [|done]. simpl.
  destruct (negb _); [|done].
  by destruct (date_input _ _).
Qed.

(** Rows that survive the parse-and-drop step carry a timestamp. *)
Lemma parsed_rows_timestamp P i (rs : list row) col r :
  r ∈ filter (λ x, isna (cell_at i x) = false)
        (zip_with (set_cell i) rs (to_datetime P col)) →
  ∃ ts, cell_at i r = CTime ts.
Proof.
  intros [Hna Hr]%list_elem_of_filter.
  apply elem_of_zip_with in Hr as (r0 & v & -> & _ & Hv).
  pose proof (to_datetime_is_datetime P col) as Hall.
  rewrite Forall_forall in Hall. specialize (Hall v Hv).
  pose proof (cell_at_set_cell_datetime i r0 v Hall) as Hd.
  destruct (cell_at i (set_cell i r0 v)); try done. by eexists.
Qed.

Lemma empty_Frame cols rs :
  empty (Frame cols rs) = bool_decide (rs = [] ∨ cols = []).
Proof.
  unfold empty. by destruct rs, cols.
Qed.

(** What the engine returns, case by case. *)
Lemma filter_table_inv P t dc rng t' :
  filter_table P t dc rng = Ok t' →
  (dc = "None" ∧ t' = t) ∨
  (dc ≠ "None" ∧ ∃ i valid,
     col_index dc (columns t) = Some i ∧
     columns t' = columns t ∧
     valid = filter (λ x, isna (cell_at i x) = false)
               (zip_with (set_cell i) (rows t)
                  (to_datetime P (cell_at i <$> rows t))) ∧
     ((valid = [] ∧ rows t' = []) ∨
      (valid ≠ [] ∧ ∃ s e,
         date_input
           (date (series_min (omap timestamp (cell_at i <$> valid))),
            date (series_max (omap timestamp (cell_at i <$> valid)))) rng
           = (s, e) ∧
         rows t' = filter (λ r, in_range s e (cell_at i r) = true) valid))).
Proof.
  rewrite filter_table_frames. unfold frames.
  destruct (String.eqb_spec dc "None") as [->|Hdc]; cbn [negb].
  { intros [= <-]. by left. }
  destruct (col_index dc (columns t)) as [i|] eqn:Hi; [|done].
  rewrite (assign_column_columns _ _ _ i Hi).
  unfold assign_column. rewrite Hi. cbn [rows columns].
  set (valid := filter _ _).
  intros Ht'. right. split; [done|]. exists i, valid. split; [done|].
  assert (columns t ≠ []) as Hcols.
  { intros Hnil. by rewrite Hnil in Hi. }
  rewrite empty_Frame in Ht'.
  destruct (decide (valid = [])) as [Hv|Hv].
  - rewrite bool_decide_true in Ht' by (by left). cbn in Ht'.
    inversion Ht'; subst t'. cbn [rows columns]. rewrite Hv. auto.
  - rewrite bool_decide_false in Ht' by (by intros [?|?]). cbn [negb] in Ht'.
    cbv zeta in Ht'.
    destruct (date_input _ _) as [s e] eqn:Hin. cbn in Ht'.
    inversion Ht'; subst t'. cbn [rows columns].
    split; [done|]. split; [done|]. right. split; [done|].
    exists s, e. split; [done|].
    rewrite <- list_fmap_compose. apply (select_fmap (in_range s e ∘ cell_at i)).
Qed.

Lemma forallb_true_Forall {A} (f : A → bool) (l : list A) :
  forallb f l = true ↔ Forall (λ x, f x = true) l.
Proof.
  rewrite forallb_forall, Forall_forall.
  split; intros H x Hx; apply H; by apply list_elem_of_In.
Qed.

Lemma Forall_filter {A} (P Q : A → Prop) `{∀ x, Decision (P x)} (l : list A) :
  Forall Q l → Forall Q (filter P l).
Proof.
  rewrite !Forall_forall. intros HQ x [_ Hx]%list_elem_of_filter. by apply HQ.
Qed.

Lemma filter_none {A} (P : A → Prop) `{∀ x, Decision (P x)} (l : list A) :
  Forall (λ x, ¬ P x) l → filter P l = [].
Proof.
  induction 1 as [|x l Hx _ IH]; [done|]. by rewrite filter_cons_False.
Qed.

(** A frame whose date column holds timestamps inside the range the widget
    hands back is returned unchanged. *)
Lemma filter_table_fixed P cols rs i dc rng :
  dc ≠ "None" →
  col_index dc cols = Some i →
  Forall (λ r, ∃ ts, cell_at i r = CTime ts) rs →
  (∀ s e,
     date_input (date (series_min (omap timestamp (cell_at i <$> rs))),
                 date (series_max (omap timestamp (cell_at i <$> rs)))) rng
       = (s, e) →
     Forall (λ r, in_range s e (cell_at i r) = true) rs) →
  filter_table P (Frame cols rs) dc rng = Ok (Frame cols rs).
Proof.
  intros Hdc Hi Hts Hrange.
  rewrite filter_table_frames. unfold frames.
  destruct (String.eqb_spec dc "None") as [|_]; [done|]. cbn [negb columns rows].
  rewrite Hi.
  assert (to_datetime P (cell_at i <$> rs) = cell_at i <$> rs) as ->.
  { unfold to_datetime.
    rewrite (proj2 (forallb_true_Forall is_datetime (cell_at i <$> rs))); [done|].
    apply Forall_fmap. eapply Forall_impl; [exact Hts|].
    intros r [ts Hr]. simpl. by rewrite Hr. }
  unfold assign_column. cbn [columns rows]. rewrite Hi. cbn [columns rows].
  rewrite zip_with_set_cell_id.
  rewrite filter_all.
  2:{ eapply Forall_impl; [exact Hts|]. intros r [ts Hr]. by rewrite Hr. }
  rewrite empty_Frame.
  destruct (bool_decide (rs = [] ∨ cols = [])); [done|]. cbn [negb].
  cbv zeta. destruct (date_input _ _) as [s e] eqn:Hin. cbn.
  rewrite <- list_fmap_compose.
  rewrite (select_fmap (in_range s e ∘ cell_at i)).
  rewrite filter_all; [done|]. by apply Hrange.
Qed.

(** C8. Date filtering is idempotent: the filter engine (parse the dates,
    drop the rows that do not parse, keep the rows inside the range) applied
    to its own output, with the same date column and the same range, returns
    that output. *)
Theorem date_filter_idempotent P t dc rng t1 :
  filter_table P t dc rng = Ok t1 →
  filter_table P t1 dc rng = Ok t1.
Proof.
  intros Ht1.
  destruct (filter_table_inv _ _ _ _ _ Ht1)
    as [[-> ->]|(Hdc & i & valid & Hi & Hcols & Hvalid & Hrows)].
  { done. }
  destruct t1 as [cols rs]. cbn [columns rows] in *. subst cols.
  assert (Forall (λ r, ∃ ts, cell_at i r = CTime ts) valid) as Hts.
  { apply Forall_forall. intros r Hr. subst valid.
    by eapply parsed_rows_timestamp. }
  apply (filter_table_fixed P (columns t) rs i); [done|done|..].
  - destruct Hrows as [[_ ->]|(_ & s & e & _ & ->)]; [done|].
    by apply Forall_filter.
  - intros s' e' Hin.
    destruct Hrows as [[_ ->]|(_ & s & e & Hse & Hrs)]; [done|].
    destruct rng as [[s0 e0]|]; cbn [date_input default] in *.
    + injection Hin as <- <-. injection Hse as <- <-.
      rewrite Hrs. apply Forall_forall. by intros r [? _]%list_elem_of_filter.
    + injection Hin as <- <-.
      assert (Forall (λ r, ∃ ts, cell_at i r = CTime ts) rs) as Hts'.
      { rewrite Hrs. by apply Forall_filter. }
      apply Forall_forall. intros r Hr.
      rewrite Forall_forall in Hts'. destruct (Hts' r Hr) as [ts Hc].
      unfold in_range. rewrite Hc. cbn [dt_date].
      assert (ts ∈ omap timestamp (cell_at i <$> rs)) as Hin.
      { apply list_elem_of_omap. exists (CTime ts). split; [|done].
        rewrite <- Hc. by apply list_elem_of_fmap_2. }
      apply andb_true_intro. split; apply Z.leb_le; apply date_mono.
      * by apply series_min_le.
      * by apply series_max_ge.
Qed.

Lemma col_index_lt c cols i :
  col_index c cols = Some i → (i < length cols)%nat.
Proof.
  revert i. induction cols as [|c' cols IH]; intros i; [done|]. simpl.
  destruct (String.eqb c c').
  - intros [= <-]. lia.
  - destruct (col_index c cols) as [j|]; [|done].
    intros [= <-]. specialize (IH j eq_refl). lia.
Qed.

Lemma col_index_name c cols i :
  col_index c cols = Some i → cols !! i = Some c.
Proof.
  revert i. induction cols as [|c' cols IH]; intros i; [done|]. simpl.
  destruct (String.eqb_spec c c') as [->|_].
  - by intros [= <-].
  - destruct (col_index c cols) as [j|]; [|done].
    intros [= <-]. by apply IH.
Qed.

Lemma col_index_elem_of c cols :
  c ∈ cols → ∃ i, col_index c cols = Some i.
Proof.
  induction cols as [|c' cols IH]; [by intros ?%elem_of_nil|]. simpl.
  destruct (String.eqb_spec c c') as [->|Hne]; [by eexists|].
  intros [->|Hc]%elem_of_cons; [done|].
  destruct (IH Hc) as [i ->]. by eexists.
Qed.

Lemma sublist_fmap_inv {A B} (f : A → B) (l : list B) (k : list A) :
  l `sublist_of` f <$> k → ∃ k', k' `sublist_of` k ∧ l = f <$> k'.
Proof.
  revert l. induction k as [|x k IH]; intros l; csimpl.
  - intros ->%sublist_nil_r. by exists [].
  - intros [Hl|(l' & -> & Hl)]%sublist_cons_r.
    + destruct (IH _ Hl) as (k' & Hk' & ->).
      exists k'. split; [|done]. by apply sublist_cons.
    + destruct (IH _ Hl) as (k' & Hk' & ->).
      exists (x :: k'). split; [|done]. by apply sublist_skip.
Qed.

Lemma frames_total P t dc rng i :
  col_index dc (columns t) = Some i →
  ∃ fs t', frames P t dc rng = Ok fs ∧ last fs = Some t'.
Proof.
  intros Hi. unfold frames. rewrite Hi.
  destruct (negb _); [|by eexists _, _].
  cbv zeta. destruct (negb _); [|by eexists _, _].
  destruct (date_input _ _). by eexists _, _.
Qed.

(** The engine returns a frame whenever the selection comes from the date
    selectbox: "None" or a column of the frame. *)
Lemma filter_table_defined P t dc rng :
  dc = "None" ∨ dc ∈ columns t → ∃ fd, filter_table P t dc rng = Ok fd.
Proof.
  intros Hdc. rewrite filter_table_frames.
  destruct (String.eqb_spec dc "None") as [->|Hne].
  { by eexists. }
  destruct Hdc as [?|Hin]; [done|].
  destruct (col_index_elem_of _ _ Hin) as [i Hi].
  destruct (frames_total P t dc rng i Hi) as (fs & t' & -> & _).
  by eexists.
Qed.

(** C10. With a date column selected, the filter engine works on a copy:
    the frame that was loaded is unchanged in the heap.  The frame it returns
    has the same columns; its rows are, in their original order, rows of the
    loaded frame with their label and all cells outside the date column
    unchanged, and with the parsed timestamp in the date column. *)
Theorem filter_engine_frame P h df t dc rng i :
  h !! df = Some t →
  dc ≠ "None" →
  col_index dc (columns t) = Some i →
  well_formed t →
  ∃ out h' t',
    filtered_df P df dc rng h = Ok (out, h') ∧
    h' !! df = Some t ∧
    out ≠ df ∧
    h' !! out = Some t' ∧
    columns t' = columns t ∧
    ∃ kept,
      kept `sublist_of` zip (rows t) (to_datetime P (cell_at i <$> rows t)) ∧
      Forall2 (λ p r',
                 label r' = label p.1 ∧
                 cells r' !! i = Some p.2 ∧
                 (∃ ts, p.2 = CTime ts) ∧
                 ∀ j, j ≠ i → cells r' !! j = cells p.1 !! j)
        kept (rows t').
Proof.
  intros Hdf Hdc Hi Hwf.
  destruct (frames_total P t dc rng i Hi) as (fs & t' & Hfs & Hlast).
  pose proof (filtered_df_frames P df dc rng h t Hdf) as Hrun.
  pose proof (filter_table_frames P t dc rng) as Htab.
  rewrite Hfs in Hrun, Htab. rewrite Hlast in Htab. cbn in Htab.
  pose proof (lookup_lt_Some _ _ _ Hdf) as Hlt.
  assert (fs ≠ []) as Hne by (by intros ->).
  assert (0 < length fs)%nat as Hlen by (destruct fs; [done|simpl; lia]).
  exists (length h + length fs - 1)%nat, (h ++ fs), t'.
  split; [done|]. split; [by rewrite lookup_app_l|]. split; [lia|].
  split.
  { rewrite lookup_app_r by lia. rewrite last_lookup in Hlast.
    rewrite <- Hlast. f_equal. lia. }
  destruct (filter_table_inv _ _ _ _ _ Htab)
    as [[? _]|(_ & i' & valid & Hi' & Hcols & Hvalid & Hrows)]; [done|].
  rewrite Hi in Hi'. injection Hi' as <-.
  split; [done|].
  assert (rows t' `sublist_of`
            uncurry (set_cell i)
              <$> zip (rows t) (to_datetime P (cell_at i <$> rows t))) as Hsub.
  { rewrite <- zip_with_zip.
    destruct Hrows as [[_ ->]|(_ & s & e & _ & ->)]; [apply sublist_nil_l|].
    etrans; [apply sublist_filter|]. subst valid. apply sublist_filter. }
  destruct (sublist_fmap_inv _ _ _ Hsub) as (kept & Hkept & Hrs).
  exists kept. split; [done|]. rewrite Hrs.
  apply Forall2_fmap_r, Forall_Forall2_diag, Forall_forall.
  intros [r v] Hp. cbn [fst snd uncurry].
  assert ((r, v) ∈ zip (rows t) (to_datetime P (cell_at i <$> rows t))) as Hz.
  { by eapply elem_of_sublist. }
  assert (r ∈ rows t) as Hr by (by eapply elem_of_zip_l).
  assert (i < length (cells r))%nat as Hir.
  { unfold well_formed in Hwf. rewrite Forall_forall in Hwf.
    rewrite (Hwf r Hr). by eapply col_index_lt. }
  assert (set_cell i r v ∈ rows t') as Hin.
  { rewrite Hrs. by apply (list_elem_of_fmap_2 (uncurry (set_cell i)) _ (r, v)). }
  split; [done|]. split; [by apply list_lookup_insert_eq|]. split.
  - assert (set_cell i r v ∈ valid) as Hv.
    { destruct Hrows as [[_ Hnil]|(_ & s & e & _ & Hf)].
      - rewrite Hnil in Hin. by apply elem_of_nil in Hin.
      - rewrite Hf in Hin. by apply list_elem_of_filter in Hin as [_ ?]. }
    subst valid. destruct (parsed_rows_timestamp _ _ _ _ _ Hv) as [ts Hts].
    exists ts. unfold cell_at, set_cell in Hts. cbn in Hts.
    by rewrite list_lookup_insert_eq in Hts.
  - intros j Hj. cbn. by apply list_lookup_insert_ne.
Qed.

(** ** Paging *)

Lemma total_pages_bounds (len : nat) (P : Z) :
  0 < P →
  (total_pages len P - 1) * P < Z.of_nat len ≤ total_pages len P * P
  ∨ (len = 0%nat ∧ total_pages len P = 0).
Proof.
  intros HP. unfold total_pages.
  pose proof (Z.div_mod (Z.of_nat len - 1) P ltac:(lia)) as Hdm.
  pose proof (Z.mod_pos_bound (Z.of_nat len - 1) P HP) as Hmod.
  destruct (decide (len = 0%nat)) as [->|Hlen].
  - right. split; [done|]. change (Z.of_nat 0 - 1) with (-1) in *.
    assert ((-1) / P = -1) as ->; [|done].
    symmetry. apply (Z.div_unique_pos _ _ _ (P - 1)); lia.
  - left. nia.
Qed.

Lemma iloc_rows_between {A} (l : list A) (start stop : Z) :
  0 ≤ start ≤ Z.of_nat (length l) → 0 ≤ stop →
  iloc l start stop =
    rows_between l start (Z.min stop (Z.of_nat (length l))).
Proof.
  intros Hs He. unfold iloc, rows_between.
  destruct (Z.ltb_spec start 0); [lia|].
  destruct (Z.ltb_spec stop 0); [lia|].
  by rewrite (Z.min_l start) by lia.
Qed.

Lemma rows_between_take {A} (l : list A) (a b : Z) :
  0 ≤ a ≤ b →
  rows_between l a (Z.min b (Z.of_nat (length l))) =
    take (Z.to_nat (b - a)) (drop (Z.to_nat a) l).
Proof.
  intros Hab. unfold rows_between.
  destruct (decide (b ≤ Z.of_nat (length l))).
  - by rewrite Z.min_l by lia.
  - rewrite Z.min_r by lia.
    rewrite !take_ge; [done|rewrite length_drop; lia..].
Qed.

Lemma pages_join {A} (bar : list A) (P : Z) (m : nat) :
  0 < P →
  Z.of_nat m ≤ total_pages (length bar) P →
  mjoin ((λ k, page_df bar P k) <$> seqZ 1 (Z.of_nat m)) =
    take (Z.to_nat (Z.of_nat m * P)) bar.
Proof.
  intros HP. induction m as [|m IH]; intros Hm.
  { done. }
  rewrite seqZ_S, fmap_app, join_app. rewrite IH by lia. csimpl.
  rewrite app_nil_r.
  destruct (total_pages_bounds (length bar) P HP) as [Hb|[_ Hz]]; [|lia].
  unfold page_df.
  rewrite iloc_rows_between by nia.
  replace ((1 + Z.of_nat m - 1) * P + P) with (Z.of_nat (S m) * P) by lia.
  replace ((1 + Z.of_nat m - 1) * P) with (Z.of_nat m * P) by lia.
  rewrite rows_between_take by nia.
  rewrite take_take_drop. f_equal. nia.
Qed.

(** A page inside the page count shows the rows [(k-1)*P, min(k*P, N)). *)
Lemma page_df_slice {A} (bar : list A) (P k : Z) :
  0 < P →
  1 ≤ k ≤ total_pages (length bar) P →
  page_df bar P k =
    rows_between bar ((k - 1) * P) (Z.min (k * P) (Z.of_nat (length bar))).
Proof.
  intros HP Hk.
  destruct (total_pages_bounds (length bar) P HP) as [Hb|[_ Hz]]; [|lia].
  unfold page_df. rewrite iloc_rows_between by nia.
  f_equal. f_equal. lia.
Qed.

(** C2. For a page size P between 5 and 40 and a sorted aggregation of any
    length N, the page count is the ceiling of N/P (the least k with
    N <= k*P); page k of 1..total_pages shows the rows
    [(k-1)*P, min(k*P, N)); these row ranges do not overlap, and the pages
    in order concatenate to the whole aggregation. *)
Theorem paging_partition {A} (bar : list A) (P : Z) :
  5 ≤ P ≤ 40 →
  let N := Z.of_nat (length bar) in
  let pages := total_pages (length bar) P in
  (N ≤ pages * P ∧ ∀ k, N ≤ k * P → pages ≤ k) ∧
  (∀ k, 1 ≤ k ≤ pages →
     page_df bar P k = rows_between bar ((k - 1) * P) (Z.min (k * P) N)) ∧
  (∀ i j, 1 ≤ i → i < j → j ≤ pages → Z.min (i * P) N ≤ (j - 1) * P) ∧
  mjoin ((λ k, page_df bar P k) <$> seqZ 1 pages) = bar.
Proof.
  intros HP N pages.
  assert (0 < P) as HP0 by lia.
  pose proof (total_pages_bounds (length bar) P HP0) as Hb.
  fold N pages in Hb.
  split; [|split; [|split]].
  - destruct Hb as [Hb|[Hlen Hz]].
    + split; [lia|]. intros k Hk. nia.
    + split; [lia|]. intros k Hk. nia.
  - intros k Hk. by apply page_df_slice.
  - intros i j Hi Hij Hj. nia.
  - destruct Hb as [Hb|[Hlen Hz]].
    + assert (0 ≤ pages) as Hpos by nia.
      rewrite <- (Z2Nat.id pages Hpos).
      rewrite pages_join by lia.
      apply take_ge. nia.
    + rewrite Hz. apply length_zero_iff_nil in Hlen. by rewrite Hlen.
Qed.

Lemma bars_slider h :
  ∃ per_page,
    slider 5 40 15 5 h = Ok per_page ∧
    5 ≤ per_page ≤ 40 ∧ per_page mod 5 = 0 ∧
    (5 ≤ h ≤ 40 → h mod 5 = 0 → per_page = h).
Proof.
  unfold slider. cbn [Z.leb Z.compare Pos.compare Pos.compare_cont].
  destruct ((5 <=? h) && (h <=? 40) && ((h - 5) mod 5 =? 0)) eqn:Hgrid.
  - exists h. split; [done|].
    apply andb_true_iff in Hgrid as [[Hlo Hhi]%andb_true_iff Hstep].
    apply Z.leb_le in Hlo, Hhi. apply Z.eqb_eq in Hstep.
    split; [lia|]. split; [|done].
    revert Hstep. Z.div_mod_to_equations. lia.
  - exists 15. split; [done|]. split; [lia|]. split; [done|].
    intros Hh Hmod. exfalso.
    apply not_true_iff_false in Hgrid. apply Hgrid.
    rewrite !andb_true_iff, !Z.leb_le, Z.eqb_eq.
    split; [lia|]. revert Hmod. Z.div_mod_to_equations. lia.
Qed.

Lemma page_slider pages h :
  (pages ≤ 1 →
     ∃ msg, slider 1 pages 1 1 h = Raise (StreamlitAPIException msg)) ∧
  (1 < pages →
     ∃ shown, slider 1 pages 1 1 h = Ok shown ∧ 1 ≤ shown ≤ pages ∧
              (1 ≤ h ≤ pages → shown = h)).
Proof.
  unfold slider. split; intros Hpages.
  - rewrite (proj2 (Z.leb_le pages 1)) by done. by eexists.
  - rewrite (proj2 (Z.leb_gt pages 1)) by done.
    rewrite Z.mod_1_r, Z.eqb_refl, andb_true_r.
    destruct ((1 <=? h) && (h <=? pages)) eqn:Hin.
    + apply andb_true_iff in Hin as [Hlo%Z.leb_le Hhi%Z.leb_le].
      exists h. split; [done|]. split; [lia|done].
    + exists 1. split; [done|]. split; [lia|].
      intros Hh. exfalso. apply not_true_iff_false in Hin. apply Hin.
      rewrite andb_true_iff, !Z.leb_le. lia.
Qed.

(** All bars fit on one page exactly when there is no more than one page. *)
Lemma total_pages_one (len : nat) (P : Z) :
  0 < P → len ≠ 0%nat → (total_pages len P ≤ 1 ↔ Z.of_nat len ≤ P).
Proof.
  intros HP Hlen.
  destruct (total_pages_bounds len P HP) as [Hb|[? _]]; [|done]. nia.
Qed.


(** ** One pass of the script *)

(** A pass with a usable frame: the filter engine, the emptiness guard, the
    panels. *)
Lemma app_filter P qs t ui :
  numeric_cols t ≠ [] →
  app P qs (Some t) ui =
    match filter_table P t (date_col ui) (date_range ui) with
    | Raise e => Crashed e
    | Ok fd =>
        if empty fd
        then Stopped (Warning "No data available after filtering.")
        else match panels qs fd ui with
             | Ok d => Rendered d
             | Raise e => Crashed e
             end
    end.
Proof.
  intros Hnum. unfold app, script, filter_table.
  unfold mbind, M_bind, bind, mret, M_ret, ret, load, lift. cbn [lookup list_lookup].
  rewrite bool_decide_false by done.
  destruct (filtered_df P 0%nat (date_col ui) (date_range ui) [t])
    as [[fd h]|e]; [|done].
  destruct (h !! fd) as [t'|]; [|done].
  destruct (empty t'); [done|].
  by destruct (panels qs t' ui).
Qed.

(** ** KPIs *)

Lemma values_missing col :
  Forall (λ v, v = CNaN) col → values col = Ok (number <$> col).
Proof.
  intros Hall. unfold values.
  rewrite (proj2 (forallb_true_Forall is_number col)); [done|].
  eapply Forall_impl; [exact Hall|]. by intros v ->.
Qed.

Lemma omap_id_missing col :
  Forall (λ v, v = CNaN) col → omap id (number <$> col) = [].
Proof. induction 1 as [|v col -> _ IH]; [done|]. by csimpl. Qed.

Lemma nansum_missing col :
  Forall (λ v, v = CNaN) col → nansum (number <$> col) = 0%Qc.
Proof. induction 1 as [|v col -> _ IH]; [done|]. by csimpl. Qed.

(** C5 (amended). When every value of the metric column is missing, the KPI
    computation reports no error: the total is 0 and the average and the
    maximum are NaN. *)
Theorem kpis_all_missing t vc col :
  column t vc = Ok col →
  Forall (λ v, v = CNaN) col →
  key_metrics t vc = Ok (Kpis 0%Qc None None).
Proof.
  intros Hcol Hall. unfold key_metrics. rewrite Hcol. cbn.
  rewrite (values_missing col Hall). cbn.
  unfold nanmean, nanmax, count.
  rewrite (omap_id_missing col Hall), (nansum_missing col Hall). done.
Qed.

(** ** Empty results *)

(** C6 (amended). With a date column selected, a pass halts with the same
    warning, "No data available after filtering.", in both cases: when no
    value of the date column parses, and when some dates parse but none lies
    in the chosen range. *)
Theorem empty_after_dates_same_warning P qs t ui i :
  numeric_cols t ≠ [] →
  date_col ui ≠ "None" →
  col_index (date_col ui) (columns t) = Some i →
  let parsed := to_datetime P (cell_at i <$> rows t) in
  Forall (λ v, v = CNaN) parsed
  ∨ (Exists (λ v, v ≠ CNaN) parsed ∧
     ∃ s e, date_range ui = Some (s, e) ∧
            Forall (λ v, in_range s e v = false) parsed) →
  app P qs (Some t) ui
    = Stopped (Warning "No data available after filtering.").
Proof.
  intros Hnum Hdc Hi parsed Hcase.
  rewrite app_filter by done.
  destruct (frames_total P t (date_col ui) (date_range ui) i Hi)
    as (fs & fd & Hfs & Hlast).
  pose proof (filter_table_frames P t (date_col ui) (date_range ui)) as Htab.
  rewrite Hfs, Hlast in Htab. cbn in Htab. rewrite Htab.
  destruct (filter_table_inv _ _ _ _ _ Htab)
    as [[? _]|(_ & i' & valid & Hi' & Hcols & Hvalid & Hrows)]; [done|].
  rewrite Hi in Hi'. injection Hi' as <-.
  assert (rows fd = []) as Hnil; [|by destruct fd as [? []]; simplify_eq/=].
  assert (∀ r, r ∈ valid → cell_at i r ∈ parsed ∧ cell_at i r ≠ CNaN) as Hv.
  { intros r Hr. subst valid.
    apply list_elem_of_filter in Hr as [Hna Hr].
    apply elem_of_zip_with in Hr as (r0 & v & -> & _ & Hv).
    split; [|by intros Heq; rewrite Heq in Hna].
    revert Hna. unfold cell_at, set_cell. cbn.
    destruct (decide (i < length (cells r0))%nat).
    - by rewrite list_lookup_insert_eq.
    - rewrite list_insert_ge by lia.
      by rewrite (proj2 (lookup_ge_None (cells r0) i)) by lia. }
  destruct Hcase as [Hall|(_ & s & e & Hrng & Hout)].
  - destruct Hrows as [[_ ?]|(Hne & _)]; [done|].
    destruct valid as [|r valid']; [done|].
    destruct (Hv r) as [Hin Hna]; [left|].
    rewrite Forall_forall in Hall. by specialize (Hall _ Hin).
  - destruct Hrows as [[_ ?]|(_ & s' & e' & Hin & ->)]; [done|].
    rewrite Hrng in Hin. cbn in Hin. injection Hin as <- <-.
    apply filter_none. apply Forall_forall. intros r Hr.
    destruct (Hv r Hr) as [Hp _].
    rewrite Forall_forall in Hout. rewrite (Hout _ Hp). done.
Qed.

(** ** Grouping *)

Lemma nansum_cons o xs : nansum (o :: xs) = (default 0 o + nansum xs)%Qc.
Proof. destruct o; simpl; [done|by rewrite Qcplus_0_l]. Qed.

Section groupby.
Context {K : Type} `{EqDecision K}.
Implicit Types (pairs : list (K * option Qc)) (keys : list K).

Lemma groupby_sum_unfold sort_keys pairs :
  groupby_sum sort_keys pairs =
    (λ k, (k, group_total pairs k)) <$> sort_keys (remove_dups (pairs.*1)).
Proof. done. Qed.

Lemma groupby_sum_keys sort_keys pairs :
  (groupby_sum sort_keys pairs).*1 = sort_keys (remove_dups (pairs.*1)).
Proof.
  rewrite groupby_sum_unfold, <- list_fmap_compose. apply list_fmap_id.
Qed.

Lemma groupby_sum_elem_of sort_keys pairs k s :
  (k, s) ∈ groupby_sum sort_keys pairs → s = group_total pairs k.
Proof.
  rewrite groupby_sum_unfold. intros (k' & [= -> ->] & _)%list_elem_of_fmap.
  done.
Qed.

Lemma group_total_cons p pairs k :
  group_total (p :: pairs) k =
    ((if decide (p.1 = k) then default 0 p.2 else 0) + group_total pairs k)%Qc.
Proof.
  unfold group_total. rewrite filter_cons.
  destruct (decide (p.1 = k)); [|by rewrite Qcplus_0_l].
  rewrite fmap_cons. apply nansum_cons.
Qed.

Lemma totals_cons keys p pairs :
  NoDup keys →
  Qcsum (group_total (p :: pairs) <$> keys) =
    ((if decide (p.1 ∈ keys) then default 0 p.2 else 0)
     + Qcsum (group_total pairs <$> keys))%Qc.
Proof.
  induction 1 as [|k keys Hk _ IH]; csimpl.
  { by rewrite Qcplus_0_l. }
  rewrite IH, group_total_cons.
  destruct (decide (p.1 = k)) as [Heq|Hne].
  - rewrite (decide_True (P := p.1 ∈ k :: keys))
      by (rewrite Heq; apply list_elem_of_here).
    rewrite (decide_False (P := p.1 ∈ keys)) by (by rewrite Heq). ring.
  - rewrite (decide_ext (p.1 ∈ k :: keys) (p.1 ∈ keys)); [ring|].
    rewrite elem_of_cons. split; [by intros [?|?]|by right].
Qed.

Lemma totals_nil keys :
  Qcsum (group_total (@nil (K * option Qc)) <$> keys) = 0%Qc.
Proof.
  induction keys as [|k keys IH]; [done|]. csimpl. rewrite IH.
  unfold group_total. simpl. ring.
Qed.

(** The group totals add up to the total of all values. *)
Lemma totals_sum keys pairs :
  NoDup keys →
  (∀ p, p ∈ pairs → p.1 ∈ keys) →
  Qcsum (group_total pairs <$> keys) = nansum (pairs.*2).
Proof.
  intros Hnd. induction pairs as [|p pairs IH]; intros Hall.
  { apply totals_nil. }
  rewrite totals_cons by done.
  rewrite decide_True by (apply Hall; left).
  rewrite IH by (intros q Hq; apply Hall; by right).
  rewrite fmap_cons. by rewrite nansum_cons.
Qed.

Lemma groupby_sum_total sort_keys pairs :
  (∀ l, sort_keys l ≡ₚ l) →
  Qcsum ((groupby_sum sort_keys pairs).*2) = nansum (pairs.*2).
Proof.
  intros Hsort. rewrite groupby_sum_unfold, <- list_fmap_compose.
  change (snd ∘ _) with (group_total pairs).
  apply totals_sum.
  - rewrite Hsort. apply NoDup_remove_dups.
  - intros p Hp. rewrite Hsort, elem_of_remove_dups.
    by apply list_elem_of_fmap_2.
Qed.

Lemma groupby_sum_NoDup sort_keys pairs :
  (∀ l, sort_keys l ≡ₚ l) → NoDup ((groupby_sum sort_keys pairs).*1).
Proof.
  intros Hsort. rewrite groupby_sum_keys, Hsort. apply NoDup_remove_dups.
Qed.

Lemma groupby_sum_key_elem_of sort_keys pairs k :
  (∀ l, sort_keys l ≡ₚ l) →
  k ∈ (groupby_sum sort_keys pairs).*1 ↔ k ∈ pairs.*1.
Proof.
  intros Hsort. by rewrite groupby_sum_keys, Hsort, elem_of_remove_dups.
Qed.

Lemma groupby_sum_length sort_keys pairs :
  (∀ l, sort_keys l ≡ₚ l) →
  length (groupby_sum sort_keys pairs) = length (remove_dups (pairs.*1)).
Proof.
  intros Hsort. rewrite groupby_sum_unfold, length_fmap. by rewrite Hsort.
Qed.
End groupby.

(** ** Order of the group keys *)

Global Instance cell_le_total : Total cell_le.
Proof.
  intros [x| s| t|] [y| s'| t'|]; simpl; try lia.
  - apply (total Qcle).
  - apply (total String.le).
Qed.

Global Instance cell_le_trans : Transitive cell_le.
Proof.
  intros [x| s| t|] [y| s'| t'|] [z| s''| t''|]; simpl; try lia.
  - apply (transitivity (R := Qcle)).
  - apply (transitivity (R := String.le)).
Qed.

Global Instance cell_le_antisymm : AntiSymm (=) cell_le.
Proof.
  intros [x| s| t|] [y| s'| t'|]; simpl; try lia; intros H1 H2.
  - f_equal. by apply (anti_symm Qcle).
  - f_equal. by apply (anti_symm String.le).
  - f_equal. lia.
  - done.
Qed.

Lemma merge_sort_cells l : merge_sort cell_le l ≡ₚ l.
Proof. apply merge_sort_Permutation. Qed.

Lemma merge_sort_dates (l : list Z) : merge_sort Z.le l ≡ₚ l.
Proof. apply merge_sort_Permutation. Qed.

(** ** Group totals in terms of rows *)

Lemma zip_fmap_same {A B C} (f : A → B) (g : A → C) (l : list A) :
  zip (f <$> l) (g <$> l) = (λ x, (f x, g x)) <$> l.
Proof. induction l as [|x l IH]; [done|]. csimpl. by rewrite IH. Qed.

Lemma group_total_rows {A K} `{EqDecision K} (f : A → K)
    (g : A → option Qc) (l : list A) (k : K) :
  group_total ((λ x, (f x, g x)) <$> l) k
    = nansum (g <$> filter (λ x, f x = k) l).
Proof.
  unfold group_total. f_equal.
  induction l as [|x l IH]; [done|]. csimpl.
  rewrite !filter_cons. cbn [fst].
  destruct (decide (f x = k)); csimpl; by rewrite IH.
Qed.

Lemma group_total_dated {A K} `{EqDecision K} (f : A → option K)
    (g : A → option Qc) (l : list A) (k : K) :
  group_total (omap (λ x, (λ d, (d, g x)) <$> f x) l) k
    = nansum (g <$> filter (λ x, f x = Some k) l).
Proof.
  unfold group_total. f_equal.
  induction l as [|x l IH]; [done|]. csimpl.
  rewrite (filter_cons (λ x, f x = Some k)).
  destruct (f x) as [d|] eqn:Hfx; csimpl.
  - rewrite filter_cons. cbn [fst].
    destruct (decide (d = k)) as [->|Hne];
      destruct (decide (Some _ = Some k)) as [Heq|Hne'];
      simplify_eq; csimpl; by rewrite ?IH.
  - by destruct (decide (None = Some k)).
Qed.

Lemma key_metrics_inv t vc k :
  key_metrics t vc = Ok k →
  ∃ j, col_index vc (columns t) = Some j ∧
       values (cell_at j <$> rows t) = Ok (number ∘ cell_at j <$> rows t) ∧
       Forall (λ r, is_number (cell_at j r) = true) (rows t) ∧
       k = Kpis (nansum (number ∘ cell_at j <$> rows t))
                (nanmean (number ∘ cell_at j <$> rows t))
                (nanmax (number ∘ cell_at j <$> rows t)).
Proof.
  unfold key_metrics, column.
  destruct (col_index vc (columns t)) as [j|]; [|done]. cbn.
  unfold values.
  destruct (forallb is_number (cell_at j <$> rows t)) eqn:Hall; [|done]. cbn.
  intros [= <-]. exists j. rewrite <- list_fmap_compose.
  split; [done|]. split; [by rewrite Hall|]. split; [|done].
  apply forallb_true_Forall in Hall. by apply Forall_fmap in Hall.
Qed.

(** ** Sorting by value *)

Lemma sort_values_Permutation {K} (qs : Quicksort) (frame : list (K * Qc)) :
  sort_values qs frame ≡ₚ frame.
Proof.
  unfold sort_values.
  by rewrite reverse_Permutation, quicksort_Permutation, reverse_Permutation.
Qed.

(** Descending by value. *)
Lemma sort_values_sorted {K} (qs : Quicksort) (frame : list (K * Qc)) :
  StronglySorted (λ a b, (b.2 ≤ a.2)%Qc) (sort_values qs frame).
Proof.
  apply (StronglySorted_reverse by_value). apply quicksort_sorted.
Qed.

(** ** The grouped aggregation *)

Lemma grouped_sum_rows t gc vc i j :
  col_index gc (columns t) = Some i →
  col_index vc (columns t) = Some j →
  Forall (λ r, is_number (cell_at j r) = true) (rows t) →
  grouped_sum t gc vc =
    Ok (groupby_sum (merge_sort cell_le)
          ((λ r, (cell_at i r, (number ∘ cell_at j) r)) <$> rows t)).
Proof.
  intros Hi Hj Hnum. unfold grouped_sum, column. rewrite Hi, Hj. cbn.
  unfold values.
  rewrite (proj2 (forallb_true_Forall is_number (cell_at j <$> rows t)))
    by (by apply Forall_fmap).
  cbn. by rewrite <- list_fmap_compose, zip_fmap_same.
Qed.

Lemma bar_df_frame qs t gc vc groups bar :
  grouped_sum t gc vc = Ok groups →
  bar_df qs t gc vc = Ok bar →
  gc ≠ vc ∧ bar = sort_values qs groups.
Proof.
  intros Hg. unfold bar_df, reset_index. rewrite Hg. cbn.
  destruct (String.eqb_spec gc vc) as [|Hne]; [done|]. cbn.
  by intros [= <-].
Qed.

Lemma bar_df_defined qs t gc vc groups :
  grouped_sum t gc vc = Ok groups →
  gc ≠ vc →
  bar_df qs t gc vc = Ok (sort_values qs groups).
Proof.
  intros Hg Hne. unfold bar_df, reset_index. rewrite Hg. cbn.
  by destruct (String.eqb_spec gc vc).
Qed.

(** C4. For every filtered frame and every group column, the grouped sums
    have exactly one entry per distinct key; every row's key has an entry,
    the missing key included, so rows without a group value form one bucket
    and are never dropped; each entry is the sum of the metric over the rows
    with that key; and the sum of all group totals equals the KPI total over
    the same frame.  The grouped bar frame, when built, holds the same
    entries. *)
Theorem group_totals_conserve t gc vc i k :
  col_index gc (columns t) = Some i →
  key_metrics t vc = Ok k →
  ∃ j groups,
    col_index vc (columns t) = Some j ∧
    grouped_sum t gc vc = Ok groups ∧
    NoDup (groups.*1) ∧
    (∀ r, r ∈ rows t → cell_at i r ∈ groups.*1) ∧
    (∀ key s, (key, s) ∈ groups →
       s = nansum (number ∘ cell_at j
                     <$> filter (λ r, cell_at i r = key) (rows t))) ∧
    Qcsum (groups.*2) = kpi_total k ∧
    (∀ qs bar, bar_df qs t gc vc = Ok bar → bar ≡ₚ groups).
Proof.
  intros Hi Hk.
  destruct (key_metrics_inv _ _ _ Hk) as (j & Hj & _ & Hnum & ->).
  pose proof (grouped_sum_rows t gc vc i j Hi Hj Hnum) as Hg.
  eexists j, _. split; [done|]. split; [exact Hg|].
  split; [|split; [|split; [|split]]].
  - apply groupby_sum_NoDup, merge_sort_cells.
  - intros r Hr. apply groupby_sum_key_elem_of; [apply merge_sort_cells|].
    rewrite <- list_fmap_compose.
    by apply (list_elem_of_fmap_2 (cell_at i)).
  - intros key s Hs%groupby_sum_elem_of. rewrite Hs.
    apply (group_total_rows (cell_at i) (number ∘ cell_at j)).
  - rewrite groupby_sum_total by apply merge_sort_cells.
    cbn [kpi_total]. by rewrite <- list_fmap_compose.
  - intros qs bar Hbar.
    destruct (bar_df_frame _ _ _ _ _ _ Hg Hbar) as [_ ->].
    apply sort_values_Permutation.
Qed.

Lemma StronglySorted_sublist {A} (R : relation A) (l1 l2 : list A) :
  l1 `sublist_of` l2 → StronglySorted R l2 → StronglySorted R l1.
Proof.
  induction 1 as [|x l1 l2 Hsub IH|x l1 l2 Hsub IH]; [done|..];
    intros [Hx Hl2]%StronglySorted_cons; [|by apply IH].
  apply StronglySorted_cons. split; [|by apply IH].
  rewrite Forall_forall in Hx. apply Forall_forall.
  intros y Hy. apply Hx. by eapply elem_of_sublist.
Qed.

Lemma StronglySorted_NoDup_strict {A} (R : relation A) (l : list A) :
  StronglySorted R l → NoDup l → StronglySorted (λ x y, R x y ∧ x ≠ y) l.
Proof.
  induction 1 as [|x l Hl IH Hx]; [constructor|].
  intros [Hnin Hnd]%NoDup_cons. constructor; [by apply IH|].
  rewrite Forall_forall in Hx. apply Forall_forall.
  intros y Hy. split; [by apply Hx|]. by intros ->.
Qed.

Lemma StronglySorted_weaken {A} (R1 R2 : relation A) (l : list A) :
  (∀ x y, R1 x y → R2 x y) → StronglySorted R1 l → StronglySorted R2 l.
Proof.
  intros HR. induction 1 as [|x l Hl IH Hx]; constructor; [done|].
  eapply Forall_impl; [exact Hx|]. intros y. apply HR.
Qed.

(** The grouped sums come in ascending order of key, each key once. *)
Lemma groupby_sum_key_order (pairs : list (cell * option Qc)) :
  StronglySorted (λ a b, cell_le a.1 b.1 ∧ a.1 ≠ b.1)
    (groupby_sum (merge_sort cell_le) pairs).
Proof.
  rewrite groupby_sum_unfold.
  apply (StronglySorted_fmap _ (λ x y, cell_le x y ∧ x ≠ y)); [done|].
  apply StronglySorted_NoDup_strict.
  - apply StronglySorted_merge_sort; apply _.
  - rewrite merge_sort_cells. apply NoDup_remove_dups.
Qed.

(** The grouped sums do not depend on the order of the rows. *)
Lemma nansum_Permutation xs ys : xs ≡ₚ ys → nansum xs = nansum ys.
Proof.
  induction 1 as [|o xs ys _ IH|o1 o2 xs|xs ys zs _ IH1 _ IH2].
  - done.
  - by rewrite !nansum_cons, IH.
  - rewrite !nansum_cons. ring.
  - by rewrite IH1.
Qed.

Lemma group_total_Permutation {K} `{EqDecision K}
    (pairs pairs' : list (K * option Qc)) (k : K) :
  pairs ≡ₚ pairs' → group_total pairs k = group_total pairs' k.
Proof.
  intros Hp. unfold group_total. apply nansum_Permutation.
  by rewrite Hp.
Qed.

Lemma groupby_sum_Permutation (pairs pairs' : list (cell * option Qc)) :
  pairs ≡ₚ pairs' →
  groupby_sum (merge_sort cell_le) pairs
    = groupby_sum (merge_sort cell_le) pairs'.
Proof.
  intros Hp. rewrite !groupby_sum_unfold.
  assert (merge_sort cell_le (remove_dups (pairs.*1))
            = merge_sort cell_le (remove_dups (pairs'.*1))) as ->.
  { apply (StronglySorted_unique cell_le).
    - apply StronglySorted_merge_sort; apply _.
    - apply StronglySorted_merge_sort; apply _.
    - rewrite !merge_sort_cells.
      apply NoDup_Permutation; [apply NoDup_remove_dups..|].
      intros k. rewrite !elem_of_remove_dups. by rewrite Hp. }
  apply list_fmap_ext. intros _ k _.
  by rewrite (group_total_Permutation pairs pairs' k Hp).
Qed.

(** C1 (amended). For every filtered frame whose metric is numeric and whose
    group column is not the metric column, the grouped bar frame holds the
    grouped sums, one entry per distinct key, sorted by sum descending.  The
    order of two entries with equal sums does not follow the order in which
    their keys are met in the source frame: the groups reach the sort in
    ascending order of key, a missing key last, whatever the order of the
    rows, and the sort is pandas' default one, which is not stable; where
    equal sums end up is left to it, and is the same for all frames with the
    same grouped sums. *)
Theorem bar_df_sorted qs t gc vc i k :
  col_index gc (columns t) = Some i →
  key_metrics t vc = Ok k →
  gc ≠ vc →
  ∃ groups bar,
    grouped_sum t gc vc = Ok groups ∧
    StronglySorted (λ a b, cell_le a.1 b.1 ∧ a.1 ≠ b.1) groups ∧
    bar_df qs t gc vc = Ok bar ∧
    bar ≡ₚ groups ∧
    NoDup (bar.*1) ∧
    StronglySorted (λ a b, (b.2 ≤ a.2)%Qc) bar ∧
    (∀ t', grouped_sum t' gc vc = Ok groups → bar_df qs t' gc vc = Ok bar) ∧
    (∀ t', columns t' = columns t → rows t' ≡ₚ rows t →
       ∃ groups', grouped_sum t' gc vc = Ok groups' ∧
                  groups'.*1 = groups.*1).
Proof.
  intros Hi Hk Hne.
  destruct (key_metrics_inv _ _ _ Hk) as (j & Hj & _ & Hnum & _).
  pose proof (grouped_sum_rows t gc vc i j Hi Hj Hnum) as Hg.
  pose proof (groupby_sum_key_order
                ((λ r, (cell_at i r, (number ∘ cell_at j) r)) <$> rows t))
    as Hkeys.
  set (groups := groupby_sum _ _) in Hg, Hkeys.
  exists groups, (sort_values qs groups).
  split; [done|]. split; [done|]. split; [by apply bar_df_defined|].
  split; [apply sort_values_Permutation|].
  split; [|split; [|split]].
  - rewrite sort_values_Permutation.
    apply groupby_sum_NoDup, merge_sort_cells.
  - apply sort_values_sorted.
  - intros t' Hg'. by apply bar_df_defined.
  - intros t' Hcols Hrows.
    assert (Forall (λ r, is_number (cell_at j r) = true) (rows t')) as Hnum'
      by (by rewrite Hrows).
    rewrite <- Hcols in Hi, Hj.
    pose proof (grouped_sum_rows t' gc vc i j Hi Hj Hnum') as Hg'.
    eexists. split; [exact Hg'|]. unfold groups. f_equal.
    apply groupby_sum_Permutation. by rewrite Hrows.
Qed.

(** ** The filtered frame seen from the panels *)

Lemma numeric_cols_elem_of t vc :
  vc ∈ numeric_cols t →
  ∃ j, col_index vc (columns t) = Some j ∧ rows t ≠ [] ∧
       Forall (λ r, is_number (cell_at j r) = true) (rows t).
Proof.
  unfold numeric_cols. intros [Hnum _]%list_elem_of_filter.
  unfold is_numeric, column in Hnum.
  destruct (col_index vc (columns t)) as [j|]; [|done].
  apply andb_prop in Hnum as [Hne Hall].
  exists j. split; [done|]. split.
  - intros Hnil. rewrite Hnil in Hne. done.
  - apply forallb_true_Forall in Hall. by apply Forall_fmap in Hall.
Qed.

Lemma col_index_inj c1 c2 cols i :
  col_index c1 cols = Some i → col_index c2 cols = Some i → c1 = c2.
Proof.
  intros H1%col_index_name H2%col_index_name. congruence.
Qed.

(** Filtering leaves the columns and, outside the date column, the cells of
    the rows it keeps as they were; the date column holds timestamps. *)
Lemma filter_table_rows P t dc rng fd :
  filter_table P t dc rng = Ok fd →
  columns fd = columns t ∧
  (∀ j, col_index dc (columns t) ≠ Some j →
        ∀ r', r' ∈ rows fd → ∃ r, r ∈ rows t ∧ cell_at j r' = cell_at j r) ∧
  (dc ≠ "None" →
   ∃ i, col_index dc (columns t) = Some i ∧
        Forall (λ r, ∃ ts, cell_at i r = CTime ts) (rows fd)).
Proof.
  intros Hfd.
  destruct (filter_table_inv _ _ _ _ _ Hfd)
    as [[-> ->]|(Hdc & i & valid & Hi & Hcols & Hvalid & Hrows)].
  { split; [done|]. split; [|done]. intros j _ r Hr. by exists r. }
  assert (∀ r, r ∈ rows fd → r ∈ valid) as Hsub.
  { intros r Hr. destruct Hrows as [[_ Hnil]|(_ & s & e & _ & Hf)].
    - rewrite Hnil in Hr. by apply elem_of_nil in Hr.
    - rewrite Hf in Hr. by apply list_elem_of_filter in Hr as [_ ?]. }
  split; [done|]. split.
  - intros j Hj r' Hr'. specialize (Hsub r' Hr'). subst valid.
    apply list_elem_of_filter in Hsub as [_ Hz].
    apply elem_of_zip_with in Hz as (r & v & -> & Hr & _).
    exists r. split; [done|]. unfold cell_at, set_cell. cbn.
    rewrite list_lookup_insert_ne; [done|]. intros ->. by rewrite Hi in Hj.
  - intros _. exists i. split; [done|]. apply Forall_forall.
    intros r Hr. specialize (Hsub r Hr). subst valid.
    by eapply parsed_rows_timestamp.
Qed.

Lemma filter_table_metric P t dc rng fd vc j :
  filter_table P t dc rng = Ok fd →
  col_index vc (columns t) = Some j →
  dc ≠ vc →
  Forall (λ r, is_number (cell_at j r) = true) (rows t) →
  col_index vc (columns fd) = Some j ∧
  Forall (λ r, is_number (cell_at j r) = true) (rows fd).
Proof.
  intros Hfd Hj Hne Hnum.
  destruct (filter_table_rows _ _ _ _ _ Hfd) as (Hcols & Hkeep & _).
  rewrite Hcols. split; [done|].
  apply Forall_forall. intros r' Hr'.
  destruct (Hkeep j) with (r' := r') as (r & Hr & ->); [|done|].
  - intros Hi. apply Hne. by eapply col_index_inj.
  - rewrite Forall_forall in Hnum. by apply Hnum.
Qed.

Lemma key_metrics_defined t vc j :
  col_index vc (columns t) = Some j →
  Forall (λ r, is_number (cell_at j r) = true) (rows t) →
  key_metrics t vc =
    Ok (Kpis (nansum (number ∘ cell_at j <$> rows t))
             (nanmean (number ∘ cell_at j <$> rows t))
             (nanmax (number ∘ cell_at j <$> rows t))).
Proof.
  intros Hj Hnum. unfold key_metrics, column, values. rewrite Hj. cbn.
  rewrite (proj2 (forallb_true_Forall is_number (cell_at j <$> rows t)))
    by (by apply Forall_fmap).
  cbn. by rewrite <- list_fmap_compose.
Qed.

(** ** Sums, maxima and filters *)

Lemma filter_ext_elem_of {A} (P Q : A → Prop)
    `{∀ x, Decision (P x), ∀ x, Decision (Q x)} (l : list A) :
  (∀ x, x ∈ l → P x ↔ Q x) → filter P l = filter Q l.
Proof.
  induction l as [|x l IH]; intros HPQ; [done|].
  rewrite !filter_cons, IH by (intros y Hy; apply HPQ; by right).
  destruct (decide (P x)) as [HP|HP]; destruct (decide (Q x)) as [HQ|HQ];
    try done; exfalso; [apply HQ|apply HP]; by apply (HPQ x); [left|].
Qed.

Lemma empty_false_rows t : empty t = false → rows t ≠ [] ∧ columns t ≠ [].
Proof. destruct t as [[|c cs] [|r rs]]; done. Qed.

Lemma rows_empty_false t i c :
  col_index c (columns t) = Some i → rows t ≠ [] → empty t = false.
Proof. destruct t as [[|c' cs] [|r rs]]; done. Qed.

Lemma nansum_present xs : nansum xs = Qcsum (omap id xs).
Proof.
  induction xs as [|[x|] xs IH]; [done|..]; csimpl; by rewrite IH.
Qed.

Lemma Qcmax_cases a y :
  (Qcmax a y = a ∨ Qcmax a y = y) ∧ (a ≤ Qcmax a y)%Qc ∧ (y ≤ Qcmax a y)%Qc.
Proof.
  unfold Qcmax. destruct (decide (a ≤ y)%Qc) as [Hay|Hay].
  - split; [by right|]. split; [done|reflexivity].
  - split; [by left|]. split; [reflexivity|].
    apply Qclt_le_weak. by apply Qclt_nge.
Qed.

Lemma foldl_Qcmax_spec l a :
  foldl Qcmax a l ∈ a :: l ∧ ∀ x, x ∈ a :: l → (x ≤ foldl Qcmax a l)%Qc.
Proof.
  revert a. induction l as [|y l IH]; intros a; simpl.
  { split; [left|]. intros x ->%list_elem_of_singleton. reflexivity. }
  destruct (IH (Qcmax a y)) as [Hin Hle].
  destruct (Qcmax_cases a y) as (Hcase & Ha & Hy).
  split.
  - apply elem_of_cons in Hin as [->|Hin].
    + destruct Hcase as [->| ->]; [left|right; left].
    + by do 2 right.
  - intros x [->|[->|Hx]%elem_of_cons]%elem_of_cons.
    + trans (Qcmax a y); [done|]. apply Hle. left.
    + trans (Qcmax a y); [done|]. apply Hle. left.
    + apply Hle. by right.
Qed.

Lemma nanmax_Some xs m :
  nanmax xs = Some m ↔
  m ∈ omap id xs ∧ ∀ x, x ∈ omap id xs → (x ≤ m)%Qc.
Proof.
  unfold nanmax. destruct (omap id xs) as [|a l].
  { split; [done|]. by intros [?%elem_of_nil _]. }
  destruct (foldl_Qcmax_spec l a) as [Hin Hle]. split.
  - by intros [= <-].
  - intros [Hm Hmax]. f_equal. apply (anti_symm Qcle); auto.
Qed.

Lemma nanmax_None xs : nanmax xs = None ↔ omap id xs = [].
Proof. unfold nanmax. by destruct (omap id xs). Qed.

Lemma dated_values {A} (f : A → option Z) (g : A → option Qc) (l : list A) :
  Forall (λ x, is_Some (f x)) l →
  (omap (λ x, (λ d, (d, g x)) <$> f x) l).*2 = g <$> l.
Proof.
  induction 1 as [|x l [d Hd] _ IH]; [done|]. csimpl.
  rewrite Hd. csimpl. by rewrite IH.
Qed.

(** ** The time series *)

Lemma omap_fmap {A B C} (f : A → B) (g : B → option C) (l : list A) :
  omap g (f <$> l) = omap (g ∘ f) l.
Proof.
  induction l as [|x l IH]; [done|]. csimpl. rewrite IH. done.
Qed.

Lemma ts_df_rows t dc vc i j :
  col_index dc (columns t) = Some i →
  col_index vc (columns t) = Some j →
  Forall (λ r, is_number (cell_at j r) = true) (rows t) →
  dc ≠ vc →
  ts_df t dc vc =
    Ok (groupby_sum (merge_sort Z.le)
          (omap (λ r, (λ d, (d, (number ∘ cell_at j) r))
                        <$> dt_date (cell_at i r)) (rows t))).
Proof.
  intros Hi Hj Hnum Hne. unfold ts_df, column, values. rewrite Hi, Hj. cbn.
  rewrite (proj2 (forallb_true_Forall is_number (cell_at j <$> rows t)))
    by (by apply Forall_fmap).
  cbn. unfold reset_index.
  destruct (String.eqb_spec dc vc) as [|_]; [done|].
  by rewrite <- list_fmap_compose, zip_fmap_same, omap_fmap.
Qed.

Lemma dated_keys {A} (f : A → option Z) (g : A → option Qc) (l : list A) :
  (omap (λ r, (λ d, (d, g r)) <$> f r) l).*1 = omap f l.
Proof.
  induction l as [|x l IH]; [done|]. csimpl.
  destruct (f x); csimpl; by rewrite IH.
Qed.

Lemma distinct_dates_rows t dc i :
  col_index dc (columns t) = Some i →
  distinct_dates t dc = remove_dups (omap (dt_date ∘ cell_at i) (rows t)).
Proof.
  intros Hi. unfold distinct_dates, column. rewrite Hi.
  by rewrite omap_fmap.
Qed.

Lemma dt_date_on_day v d : dt_date v = Some d ↔ on_day d v = true.
Proof.
  destruct v as [x|x|t|]; cbn; try (split; discriminate).
  unfold date, ns_per_day.
  rewrite andb_true_iff, Z.leb_le, Z.ltb_lt.
  pose proof (Z.mul_div_le t 86400000000000 ltac:(lia)).
  pose proof (Z.mul_succ_div_gt t 86400000000000 ltac:(lia)).
  split.
  - intros [= <-]. lia.
  - intros [Hlo Hhi]. f_equal.
    symmetry. apply (Z.div_unique t 86400000000000 d (t - d * 86400000000000));
      lia.
Qed.

(** C9. With a date column active, the time series has exactly one point per
    calendar date on which a row of the filtered frame falls, whatever the
    time of day of its timestamp; the value of a point is the sum of the
    metric values present on the rows of that date; the points are in
    ascending order of date. *)
Theorem ts_df_points P t dc vc rng fd :
  dc ≠ "None" →
  vc ∈ numeric_cols t →
  dc ≠ vc →
  filter_table P t dc rng = Ok fd →
  ∃ i j ts,
    col_index dc (columns fd) = Some i ∧
    col_index vc (columns fd) = Some j ∧
    ts_df fd dc vc = Ok ts ∧
    Forall (λ r, ∃ τ, cell_at i r = CTime τ) (rows fd) ∧
    (∀ d, d ∈ ts.*1 ↔ ∃ r, r ∈ rows fd ∧ on_day d (cell_at i r) = true) ∧
    (∀ d s, (d, s) ∈ ts →
       s = Qcsum (omap (number ∘ cell_at j)
                    (filter (λ r, on_day d (cell_at i r) = true) (rows fd)))) ∧
    StronglySorted Z.lt (ts.*1) ∧
    ts.*1 ≡ₚ distinct_dates fd dc.
Proof.
  intros Hdc Hvc Hne Hfd.
  destruct (numeric_cols_elem_of _ _ Hvc) as (j & Hj & _ & Hnum).
  destruct (filter_table_metric _ _ _ _ _ _ _ Hfd Hj Hne Hnum) as [Hj' Hnum'].
  destruct (filter_table_rows _ _ _ _ _ Hfd) as (Hcols & _ & Hdates).
  destruct (Hdates Hdc) as (i & Hi & Hstamps). rewrite <- Hcols in Hi.
  pose proof (ts_df_rows fd dc vc i j Hi Hj' Hnum' Hne) as Hts.
  set (pairs := omap _ _) in Hts.
  assert (pairs.*1 = omap (dt_date ∘ cell_at i) (rows fd)) as Hkeys.
  { apply (dated_keys (dt_date ∘ cell_at i) (number ∘ cell_at j)). }
  exists i, j, (groupby_sum (merge_sort Z.le) pairs).
  split; [done|]. split; [done|]. split; [done|]. split; [done|].
  rewrite groupby_sum_keys, Hkeys.
  split; [|split; [|split]].
  - intros d. rewrite merge_sort_dates, elem_of_remove_dups.
    rewrite list_elem_of_omap.
    split; intros (r & Hr & Hd); exists r; (split; [done|]);
      by apply dt_date_on_day.
  - intros d s Hs%groupby_sum_elem_of. rewrite Hs.
    etrans;
      [apply (group_total_dated (dt_date ∘ cell_at i) (number ∘ cell_at j))|].
    rewrite nansum_present, omap_fmap.
    change (id ∘ (number ∘ cell_at j)) with (number ∘ cell_at j).
    apply (f_equal (Qcsum ∘ omap (number ∘ cell_at j))).
    apply filter_ext_elem_of. intros r _. apply dt_date_on_day.
  - apply (StronglySorted_weaken (λ x y, x ≤ y ∧ x ≠ y)); [lia|].
    apply StronglySorted_NoDup_strict.
    + apply StronglySorted_merge_sort; apply _.
    + rewrite merge_sort_dates. apply NoDup_remove_dups.
  - rewrite merge_sort_dates. by rewrite (distinct_dates_rows fd dc i).
Qed.

(** ** The sliders, the bar panel and the histogram *)



Lemma distribution_panel_defined t ui j :
  col_index (value_col ui) (columns t) = Some j →
  Forall (λ r, is_number (cell_at j r) = true) (rows t) →
  distribution_panel t ui = hist (number ∘ cell_at j <$> rows t).
Proof.
  intros Hj Hnum. unfold distribution_panel, column, values. rewrite Hj. cbn.
  rewrite (proj2 (forallb_true_Forall is_number (cell_at j <$> rows t)))
    by (by apply Forall_fmap).
  cbn. by rewrite <- list_fmap_compose.
Qed.

Lemma remove_dups_nil_inv {A} `{EqDecision A} (l : list A) :
  remove_dups l = [] → l = [].
Proof.
  destruct l as [|x l]; [done|]. intros Hnil.
  assert (x ∈ remove_dups (x :: l)) as Hx by (apply elem_of_remove_dups; left).
  rewrite Hnil in Hx. by apply elem_of_nil in Hx.
Qed.

(** The bar panel of a frame with rows: the bar frame is not empty, the
    first slider gives a page size, and the Page slider decides. *)
Lemma grouped_bar_panel_defined qs t ui i j :
  col_index (group_col ui) (columns t) = Some i →
  col_index (value_col ui) (columns t) = Some j →
  Forall (λ r, is_number (cell_at j r) = true) (rows t) →
  rows t ≠ [] →
  group_col ui ≠ value_col ui →
  ∃ bar per_page,
    bar_df qs t (group_col ui) (value_col ui) = Ok bar ∧
    bar ≠ [] ∧
    slider 5 40 15 5 (bars_per_page ui) = Ok per_page ∧
    5 ≤ per_page ≤ 40 ∧
    (Z.of_nat (length bar) ≤ per_page →
       ∃ msg, grouped_bar_panel qs t ui = Raise (StreamlitAPIException msg)) ∧
    (per_page < Z.of_nat (length bar) →
       ∃ shown,
         1 ≤ shown ≤ total_pages (length bar) per_page ∧
         (1 ≤ page ui ≤ total_pages (length bar) per_page →
            shown = page ui) ∧
         grouped_bar_panel qs t ui =
           Ok (BarPlot (page_df bar per_page shown) shown
                 (total_pages (length bar) per_page))).
Proof.
  intros Hi Hj Hnum Hrows Hne.
  pose proof (grouped_sum_rows t _ _ i j Hi Hj Hnum) as Hg.
  pose proof (bar_df_defined qs _ _ _ _ Hg Hne) as Hbar.
  set (groups := groupby_sum _ _) in *.
  assert (sort_values qs groups ≠ []) as Hnil.
  { intros Heq%(f_equal length).
    rewrite sort_values_Permutation in Heq. unfold groups in Heq.
    rewrite groupby_sum_length in Heq by apply merge_sort_cells.
    apply length_zero_iff_nil, remove_dups_nil_inv in Heq.
    apply fmap_nil_inv, fmap_nil_inv in Heq. done. }
  destruct (bars_slider (bars_per_page ui)) as (per_page & Hper & HP & _).
  exists (sort_values qs groups), per_page.
  split; [done|]. split; [done|]. split; [done|]. split; [done|].
  assert (length (sort_values qs groups) ≠ 0%nat) as Hlen
    by (by intros ?%length_zero_iff_nil).
  pose proof (total_pages_one (length (sort_values qs groups)) per_page
                ltac:(lia) Hlen) as Hone.
  destruct (page_slider (total_pages (length (sort_values qs groups)) per_page)
              (page ui)) as [Hraise Hshown].
  unfold grouped_bar_panel. rewrite Hbar.
  cbn -[slider total_pages page_df].
  rewrite bool_decide_false by done. rewrite Hper.
  cbn -[slider total_pages page_df].
  split.
  - intros Hfit. destruct Hraise as [msg Hmsg]; [by apply Hone|].
    exists msg. by rewrite Hmsg.
  - intros Hmore. destruct Hshown as (shown & Hs & Hin & Hsame); [lia|].
    exists shown. split; [done|]. split; [done|]. by rewrite Hs.
Qed.

(** ** Isolation of the time-series panel *)


(** * Worked examples *)

(** Closed facts are decided by evaluation. *)
Ltac by_evaluation := apply (bool_decide_eq_true_1 _); vm_compute; reflexivity.

(** The scenario of the specification: the KPIs 22, 7.33 and 10, the time
    series and the grouped sums are computed; the two groups fit on one
    page, and the pass ends at the Page slider. *)
Example sales_dashboard :
  filter_table iso_parser sales "date" None = Ok sales_filtered ∧
  key_metrics sales_filtered "amount"
    = Ok (Kpis (Qc_of_Z 22) (Some (Q2Qc (22 # 3))) (Some (Qc_of_Z 10))) ∧
  ts_df sales_filtered "date" "amount"
    = Ok [(19723, Qc_of_Z 15); (19724, Qc_of_Z 7)] ∧
  bar_df stable_sort sales_filtered "region" "amount"
    = Ok [(CStr "east", Qc_of_Z 17); (CStr "west", Qc_of_Z 5)] ∧
  app iso_parser stable_sort (Some sales)
      (Controls "amount" "region" "date" None 5 1)
    = Crashed (StreamlitAPIException
                 "Slider `min_value` must be less than the `max_value`.").
Proof. repeat split; by_evaluation. Qed.

(** A pass that renders: twelve groups on three pages, the last one shown. *)
Example twelve_dashboard :
  app iso_parser stable_sort (Some twelve)
      (Controls "qty" "item" "None" None 5 3) =
    Rendered
      (Dashboard
         (Kpis (Qc_of_Z 78) (Some (Q2Qc (13 # 2))) (Some (Qc_of_Z 12)))
         (SeriesNotice (Info "Select a date column to view time series."))
         (BarPlot [(CStr "k", Qc_of_Z 2); (CStr "l", Qc_of_Z 1)] 3 3)
         ((λ z, Some (Qc_of_Z z)) <$> [12; 11; 10; 9; 8; 7; 6; 5; 4; 3; 2; 1])).
Proof. by_evaluation. Qed.

(** Metric and group column on the same column: pandas refuses to build the
    frame. *)
Example same_column_crashes :
  app iso_parser stable_sort (Some sales)
      (Controls "amount" "amount" "None" None 5 1) =
    Crashed (ValueError "cannot insert amount, already exists").
Proof. by_evaluation. Qed.

(** Metric and date column on the same column: the metric is no longer a
    number. *)
Example date_on_metric_crashes :
  ∃ msg,
    app iso_parser stable_sort (Some sales)
        (Controls "amount" "region" "amount" None 5 1)
      = Crashed (TypeError msg).
Proof. eexists. vm_compute. reflexivity. Qed.

(** Without [copy] the assignment would reach the loaded frame. *)
Example setitem_mutates :
  ∃ h', setitem 0%nat "region" [CNaN; CNaN] [gaps] = Ok (tt, h') ∧
        h' !! 0%nat ≠ Some gaps.
Proof. eexists. split; [reflexivity|]. vm_compute. discriminate. Qed.

(** Where two equal sums end up depends on the sort. *)
Example sorts_differ :
  bar_df stable_sort tied "region" "amount"
    = Ok [(CStr "east", Qc_of_Z 5); (CStr "west", Qc_of_Z 5)] ∧
  bar_df reversing_sort tied "region" "amount"
    = Ok [(CStr "west", Qc_of_Z 5); (CStr "east", Qc_of_Z 5)].
Proof. split; by_evaluation. Qed.

(** ** Counterexamples *)

(** C1, as stated, fails.  [tied] and [tied_swapped] hold the same two rows,
    "west" first in the one and "east" first in the other, and both regions
    total 5.  Whatever the sort does with equal sums, the two frames give
    the same bar frame, so the order of first appearance is broken in one
    of them. *)
Lemma first_seen_order_refuted :
  column tied "region" = Ok [CStr "west"; CStr "east"] ∧
  column tied_swapped "region" = Ok [CStr "east"; CStr "west"] ∧
  (∀ qs, ∃ bar,
     bar_df qs tied "region" "amount" = Ok bar ∧
     bar_df qs tied_swapped "region" "amount" = Ok bar ∧
     ¬ (ties_by_first_seen [CStr "west"; CStr "east"] bar ∧
        ties_by_first_seen [CStr "east"; CStr "west"] bar)) ∧
  bar_df stable_sort tied "region" "amount"
    = Ok [(CStr "east", Qc_of_Z 5); (CStr "west", Qc_of_Z 5)] ∧
  ¬ ties_by_first_seen [CStr "west"; CStr "east"]
      [(CStr "east", Qc_of_Z 5); (CStr "west", Qc_of_Z 5)].
Proof.
  assert (¬ ties_by_first_seen [CStr "west"; CStr "east"]
              [(CStr "east", Qc_of_Z 5); (CStr "west", Qc_of_Z 5)]) as Hwest.
  { intros Hties.
    specialize (Hties 1%nat 0%nat (CStr "west") (CStr "east") (Qc_of_Z 5)
                  0%nat 1%nat eq_refl eq_refl eq_refl eq_refl).
    lia. }
  assert (¬ ties_by_first_seen [CStr "east"; CStr "west"]
              [(CStr "west", Qc_of_Z 5); (CStr "east", Qc_of_Z 5)]) as Heast.
  { intros Hties.
    specialize (Hties 1%nat 0%nat (CStr "east") (CStr "west") (Qc_of_Z 5)
                  0%nat 1%nat eq_refl eq_refl eq_refl eq_refl).
    lia. }
  split; [reflexivity|]. split; [reflexivity|].
  split; [|split; [by_evaluation|done]].
  intros qs.
  set (groups := [(CStr "east", Qc_of_Z 5); (CStr "west", Qc_of_Z 5)]).
  assert (grouped_sum tied "region" "amount" = Ok groups) as Hg
    by by_evaluation.
  assert (grouped_sum tied_swapped "region" "amount" = Ok groups) as Hg'
    by by_evaluation.
  assert ("region" ≠ "amount") as Hne by discriminate.
  exists (sort_values qs groups).
  split; [by apply bar_df_defined|]. split; [by apply bar_df_defined|].
  pose proof (sort_values_Permutation qs groups) as Hperm.
  symmetry in Hperm. apply Permutation_length_2_inv in Hperm as [-> | ->].
  - by intros [? _].
  - by intros [_ ?].
Qed.


(** C5, as stated, fails: with every metric value missing the KPI
    computation raises nothing; it yields the total 0 and NaN twice. *)
Lemma all_missing_renders_kpis :
  column gaps "amount" = Ok [CNaN; CNaN] ∧
  key_metrics gaps "amount" = Ok (Kpis 0%Qc None None).
Proof. split; [reflexivity|by_evaluation]. Qed.

(** C6, as stated, fails: a date column without one valid date and a date
    range that leaves no row of a frame with valid dates end the pass with
    the same message. *)
Lemma empty_results_same_message :
  app iso_parser stable_sort (Some undated)
      (Controls "amount" "region" "date" None 5 1)
    = Stopped (Warning "No data available after filtering.") ∧
  filter_table iso_parser sparse "date" None = Ok sparse_filtered ∧
  app iso_parser stable_sort (Some sparse)
      (Controls "amount" "region" "date" (Some (19725, 19727)) 5 1)
    = Stopped (Warning "No data available after filtering.").
Proof. repeat split; by_evaluation. Qed.


(** ** Instances of the theorems *)

Lemma date_filter_idempotent_witness :
  filter_table iso_parser sparse "date" None = Ok sparse_filtered ∧
  filter_table iso_parser sparse_filtered "date" None = Ok sparse_filtered.
Proof.
  assert (filter_table iso_parser sparse "date" None = Ok sparse_filtered)
    as Hfirst by (vm_compute; reflexivity).
  split; [exact Hfirst|].
  exact (date_filter_idempotent iso_parser sparse "date" None
           sparse_filtered Hfirst).
Defined.

Lemma filter_engine_frame_witness :
  [sparse] !! 0%nat = Some sparse ∧
  "date" ≠ "None" ∧
  col_index "date" (columns sparse) = Some 0%nat ∧
  well_formed sparse ∧
  ∃ out h' t',
    filtered_df iso_parser 0%nat "date" None [sparse] = Ok (out, h') ∧
    h' !! 0%nat = Some sparse ∧
    out ≠ 0%nat ∧
    h' !! out = Some t' ∧
    columns t' = columns sparse ∧
    ∃ kept,
      kept `sublist_of`
        zip (rows sparse)
          (to_datetime iso_parser (cell_at 0 <$> rows sparse)) ∧
      Forall2 (λ p r',
                 label r' = label p.1 ∧
                 cells r' !! 0%nat = Some p.2 ∧
                 (∃ ts, p.2 = CTime ts) ∧
                 ∀ j, j ≠ 0%nat → cells r' !! j = cells p.1 !! j)
        kept (rows t').
Proof.
  assert ("date" ≠ "None") as Hdc by discriminate.
  assert (well_formed sparse) as Hwf by (repeat constructor).
  split; [reflexivity|]. split; [exact Hdc|]. split; [reflexivity|].
  split; [exact Hwf|].
  exact (filter_engine_frame iso_parser [sparse] 0%nat sparse "date" None
           0%nat eq_refl Hdc eq_refl Hwf).
Defined.

Lemma paging_partition_witness :
  5 ≤ 5 ≤ 40 ∧
  (12 ≤ total_pages (length letters) 5 * 5 ∧
   ∀ k, 12 ≤ k * 5 → total_pages (length letters) 5 ≤ k) ∧
  (∀ k, 1 ≤ k ≤ total_pages (length letters) 5 →
     page_df letters 5 k
       = rows_between letters ((k - 1) * 5) (Z.min (k * 5) 12)) ∧
  (∀ i j, 1 ≤ i → i < j → j ≤ total_pages (length letters) 5 →
     Z.min (i * 5) 12 ≤ (j - 1) * 5) ∧
  mjoin ((λ k, page_df letters 5 k)
           <$> seqZ 1 (total_pages (length letters) 5)) = letters.
Proof.
  assert (5 ≤ 5 ≤ 40) as HP by lia.
  split; [exact HP|].
  exact (paging_partition letters 5 HP).
Defined.


Lemma kpis_all_missing_witness :
  column gaps "amount" = Ok [CNaN; CNaN] ∧
  Forall (λ v, v = CNaN) [CNaN; CNaN] ∧
  key_metrics gaps "amount" = Ok (Kpis 0%Qc None None).
Proof.
  assert (Forall (λ v, v = CNaN) [CNaN; CNaN]) as Hall
    by (repeat constructor).
  split; [reflexivity|]. split; [exact Hall|].
  exact (kpis_all_missing gaps "amount" [CNaN; CNaN] eq_refl Hall).
Defined.

Lemma empty_after_dates_same_warning_witness :
  (numeric_cols undated ≠ [] ∧
   "date" ≠ "None" ∧
   col_index "date" (columns undated) = Some 0%nat ∧
   Forall (λ v, v = CNaN)
     (to_datetime iso_parser (cell_at 0 <$> rows undated)) ∧
   app iso_parser stable_sort (Some undated)
       (Controls "amount" "region" "date" None 5 1)
     = Stopped (Warning "No data available after filtering.")) ∧
  (numeric_cols sparse ≠ [] ∧
   col_index "date" (columns sparse) = Some 0%nat ∧
   Exists (λ v, v ≠ CNaN)
     (to_datetime iso_parser (cell_at 0 <$> rows sparse)) ∧
   Forall (λ v, in_range 19725 19727 v = false)
     (to_datetime iso_parser (cell_at 0 <$> rows sparse)) ∧
   app iso_parser stable_sort (Some sparse)
       (Controls "amount" "region" "date" (Some (19725, 19727)) 5 1)
     = Stopped (Warning "No data available after filtering.")).
Proof.
  assert ("date" ≠ "None") as Hdc by discriminate.
  assert (numeric_cols undated ≠ []) as Hnum by by_evaluation.
  assert (Forall (λ v, v = CNaN)
            (to_datetime iso_parser (cell_at 0 <$> rows undated))) as Hall
    by by_evaluation.
  assert (numeric_cols sparse ≠ []) as Hnum' by by_evaluation.
  assert (Exists (λ v, v ≠ CNaN)
            (to_datetime iso_parser (cell_at 0 <$> rows sparse))) as Hsome
    by by_evaluation.
  assert (Forall (λ v, in_range 19725 19727 v = false)
            (to_datetime iso_parser (cell_at 0 <$> rows sparse))) as Hout
    by by_evaluation.
  split.
  - split; [exact Hnum|]. split; [exact Hdc|]. split; [reflexivity|].
    split; [exact Hall|].
    exact (empty_after_dates_same_warning iso_parser stable_sort undated
             (Controls "amount" "region" "date" None 5 1) 0%nat
             Hnum Hdc eq_refl (or_introl Hall)).
  - split; [exact Hnum'|]. split; [reflexivity|]. split; [exact Hsome|].
    split; [exact Hout|].
    exact (empty_after_dates_same_warning iso_parser stable_sort sparse
             (Controls "amount" "region" "date" (Some (19725, 19727)) 5 1)
             0%nat Hnum' Hdc eq_refl
             (or_intror (conj Hsome
                (ex_intro _ 19725
                   (ex_intro _ 19727 (conj eq_refl Hout)))))).
Defined.

Lemma group_totals_conserve_witness :
  col_index "region" (columns sales) = Some 1%nat ∧
  key_metrics sales "amount" = Ok sales_kpis ∧
  ∃ j groups,
    col_index "amount" (columns sales) = Some j ∧
    grouped_sum sales "region" "amount" = Ok groups ∧
    NoDup (groups.*1) ∧
    (∀ r, r ∈ rows sales → cell_at 1 r ∈ groups.*1) ∧
    (∀ key s, (key, s) ∈ groups →
       s = nansum (number ∘ cell_at j
                     <$> filter (λ r, cell_at 1 r = key) (rows sales))) ∧
    Qcsum (groups.*2) = kpi_total sales_kpis ∧
    (∀ qs bar, bar_df qs sales "region" "amount" = Ok bar → bar ≡ₚ groups).
Proof.
  assert (key_metrics sales "amount" = Ok sales_kpis) as Hk by by_evaluation.
  split; [reflexivity|]. split; [exact Hk|].
  exact (group_totals_conserve sales "region" "amount" 1%nat sales_kpis
           eq_refl Hk).
Defined.

Lemma bar_df_sorted_witness :
  col_index "region" (columns tied) = Some 0%nat ∧
  key_metrics tied "amount" = Ok tied_kpis ∧
  "region" ≠ "amount" ∧
  ∃ groups bar,
    grouped_sum tied "region" "amount" = Ok groups ∧
    StronglySorted (λ a b, cell_le a.1 b.1 ∧ a.1 ≠ b.1) groups ∧
    bar_df stable_sort tied "region" "amount" = Ok bar ∧
    bar ≡ₚ groups ∧
    NoDup (bar.*1) ∧
    StronglySorted (λ a b, (b.2 ≤ a.2)%Qc) bar ∧
    (∀ t', grouped_sum t' "region" "amount" = Ok groups →
           bar_df stable_sort t' "region" "amount" = Ok bar) ∧
    (∀ t', columns t' = columns tied → rows t' ≡ₚ rows tied →
       ∃ groups', grouped_sum t' "region" "amount" = Ok groups' ∧
                  groups'.*1 = groups.*1).
Proof.
  assert (key_metrics tied "amount" = Ok tied_kpis) as Hk by by_evaluation.
  assert ("region" ≠ "amount") as Hne by discriminate.
  split; [reflexivity|]. split; [exact Hk|]. split; [exact Hne|].
  exact (bar_df_sorted stable_sort tied "region" "amount" 0%nat tied_kpis
           eq_refl Hk Hne).
Defined.

(** In [timed] two timestamps of one day, at different times, make one
    point. *)
Lemma ts_df_points_witness :
  "when" ≠ "None" ∧
  "amount" ∈ numeric_cols timed ∧
  "when" ≠ "amount" ∧
  filter_table iso_parser timed "when" None = Ok timed ∧
  ts_df timed "when" "amount" = Ok [(19723, Qc_of_Z 15); (19724, Qc_of_Z 7)] ∧
  ∃ i j ts,
    col_index "when" (columns timed) = Some i ∧
    col_index "amount" (columns timed) = Some j ∧
    ts_df timed "when" "amount" = Ok ts ∧
    Forall (λ r, ∃ τ, cell_at i r = CTime τ) (rows timed) ∧
    (∀ d, d ∈ ts.*1 ↔ ∃ r, r ∈ rows timed ∧ on_day d (cell_at i r) = true) ∧
    (∀ d s, (d, s) ∈ ts →
       s = Qcsum (omap (number ∘ cell_at j)
                    (filter (λ r, on_day d (cell_at i r) = true)
                       (rows timed)))) ∧
    StronglySorted Z.lt (ts.*1) ∧
    ts.*1 ≡ₚ distinct_dates timed "when".
Proof.
  assert ("when" ≠ "None") as Hdc by discriminate.
  assert ("amount" ∈ numeric_cols timed) as Hvc by by_evaluation.
  assert ("when" ≠ "amount") as Hne by discriminate.
  assert (filter_table iso_parser timed "when" None = Ok timed)
    as Hfd by (vm_compute; reflexivity).
  split; [exact Hdc|]. split; [exact Hvc|]. split; [exact Hne|].
  split; [exact Hfd|]. split; [by_evaluation|].
  exact (ts_df_points iso_parser timed "when" "amount" None timed
           Hdc Hvc Hne Hfd).
Defined.


(** * Further properties *)

(** ** Column names *)

Lemma lstrip_split s :
  ∃ l, s = l ++ lstrip s ∧ Forall (λ c, isspace c = true) l.
Proof.
  induction s as [|c s IH]; [by exists []|]. simpl.
  destruct (isspace c) eqn:Hc; [|by exists []].
  destruct IH as (l & Hs & Hl). exists (c :: l).
  split; [by rewrite <- app_comm_cons, <- Hs|by constructor].
Qed.

Lemma lstrip_head s c : head (lstrip s) = Some c → isspace c = false.
Proof.
  induction s as [|c' s IH]; [done|]. simpl.
  destruct (isspace c') eqn:Hc; [done|]. by intros [= <-].
Qed.

Lemma lstrip_fixed s :
  (∀ c, head s = Some c → isspace c = false) → lstrip s = s.
Proof.
  destruct s as [|c s]; [done|]. intros Hh. simpl.
  by rewrite (Hh c eq_refl).
Qed.

Lemma lstrip_spaces l s :
  Forall (λ c, isspace c = true) l → lstrip (l ++ s) = lstrip s.
Proof. induction 1 as [|c l Hc _ IH]; [done|]. simpl. by rewrite Hc. Qed.

Lemma lstrip_last s c :
  last (lstrip s) = Some c → last s = Some c.
Proof.
  destruct (lstrip_split s) as (l & Hs & _). intros Hl.
  rewrite Hs. rewrite last_app, Hl. done.
Qed.

Lemma rstrip_split s :
  ∃ r, s = rstrip s ++ r ∧ Forall (λ c, isspace c = true) r.
Proof.
  destruct (lstrip_split (reverse s)) as (l & Hs & Hl).
  exists (reverse l). split.
  - unfold rstrip. rewrite <- reverse_app, <- Hs. by rewrite reverse_involutive.
  - by apply Forall_reverse.
Qed.

Lemma rstrip_last s c : last (rstrip s) = Some c → isspace c = false.
Proof.
  unfold rstrip. rewrite last_reverse. apply lstrip_head.
Qed.

Lemma rstrip_fixed s :
  (∀ c, last s = Some c → isspace c = false) → rstrip s = s.
Proof.
  intros Hl. unfold rstrip. rewrite lstrip_fixed.
  - apply reverse_involutive.
  - intros c Hc. apply Hl. by rewrite <- head_reverse.
Qed.

Lemma rstrip_spaces s r :
  Forall (λ c, isspace c = true) r → rstrip (s ++ r) = rstrip s.
Proof.
  intros Hr. unfold rstrip. rewrite reverse_app, lstrip_spaces; [done|].
  by apply Forall_reverse.
Qed.

Lemma strip_split s :
  ∃ l r, s = l ++ strip s ++ r ∧
         Forall (λ c, isspace c = true) l ∧ Forall (λ c, isspace c = true) r.
Proof.
  destruct (rstrip_split s) as (r & Hs & Hr).
  destruct (lstrip_split (rstrip s)) as (l & Hs' & Hl).
  exists l, r. split; [|done].
  unfold strip. rewrite app_assoc, <- Hs'. done.
Qed.

Lemma strip_ends s :
  (∀ c, head (strip s) = Some c → isspace c = false) ∧
  (∀ c, last (strip s) = Some c → isspace c = false).
Proof.
  split; intros c Hc.
  - by eapply lstrip_head.
  - eapply rstrip_last. by apply lstrip_last.
Qed.

Lemma strip_fixed s :
  (∀ c, head s = Some c → isspace c = false) →
  (∀ c, last s = Some c → isspace c = false) →
  strip s = s.
Proof.
  intros Hh Hl. unfold strip. rewrite rstrip_fixed by done.
  by apply lstrip_fixed.
Qed.

Lemma replace_nbsp_free s : 160%N ∉ replace_nbsp s.
Proof.
  unfold replace_nbsp. intros (c & Hc & _)%list_elem_of_fmap.
  by destruct (N.eqb_spec c 160).
Qed.

Lemma replace_nbsp_fixed s : 160%N ∉ s → replace_nbsp s = s.
Proof.
  intros Hs. unfold replace_nbsp. rewrite <- (list_fmap_id s) at 2.
  apply list_fmap_ext. intros _ c Hc%list_elem_of_lookup_2. simpl.
  destruct (N.eqb_spec c 160) as [->|]; done.
Qed.

Lemma replace_nbsp_spaces l :
  Forall (λ c, isspace c = true) l →
  Forall (λ c, isspace c = true) (replace_nbsp l).
Proof.
  intros Hl. apply Forall_fmap. eapply Forall_impl; [exact Hl|].
  intros c Hc. simpl. by destruct (N.eqb_spec c 160).
Qed.

Lemma clean_name_free s : 160%N ∉ clean_name s.
Proof.
  unfold clean_name.
  destruct (strip_split (replace_nbsp s)) as (l & r & Hs & _).
  intros Hin. apply (replace_nbsp_free s). rewrite Hs.
  rewrite !elem_of_app. auto.
Qed.

(** X1. Cleaning a header is idempotent: a cleaned name is left as it is by
    a second pass. *)
Theorem clean_name_idempotent s : clean_name (clean_name s) = clean_name s.
Proof.
  unfold clean_name at 1.
  rewrite replace_nbsp_fixed by apply clean_name_free.
  unfold clean_name. apply strip_fixed; apply strip_ends.
Qed.

(** X2. A cleaned header is the header, no-break spaces turned into spaces,
    without the whitespace at its two ends: what is cut off is whitespace
    only, the rest is kept in place, it neither starts nor ends with
    whitespace, and it holds no no-break space. *)
Theorem clean_name_shape s :
  ∃ l r,
    replace_nbsp s = l ++ clean_name s ++ r ∧
    Forall (λ c, isspace c = true) l ∧
    Forall (λ c, isspace c = true) r ∧
    (∀ c, head (clean_name s) = Some c → isspace c = false) ∧
    (∀ c, last (clean_name s) = Some c → isspace c = false) ∧
    160%N ∉ clean_name s.
Proof.
  destruct (strip_split (replace_nbsp s)) as (l & r & Hs & Hl & Hr).
  exists l, r. split; [done|]. split; [done|]. split; [done|].
  split; [apply strip_ends|]. split; [apply strip_ends|].
  apply clean_name_free.
Qed.

(** X3. The headers the cleaning leaves unchanged are exactly those without
    a no-break space that neither start nor end with whitespace. *)
Theorem clean_name_fixed s :
  clean_name s = s ↔
  (160%N ∉ s) ∧
  (∀ c, head s = Some c → isspace c = false) ∧
  (∀ c, last s = Some c → isspace c = false).
Proof.
  split.
  - intros Hs. rewrite <- Hs. split; [apply clean_name_free|].
    apply strip_ends.
  - intros (Hfree & Hh & Hl). unfold clean_name.
    rewrite replace_nbsp_fixed by done. by apply strip_fixed.
Qed.

Lemma strip_unique l m r :
  Forall (λ c, isspace c = true) l →
  Forall (λ c, isspace c = true) r →
  (∀ c, head m = Some c → isspace c = false) →
  (∀ c, last m = Some c → isspace c = false) →
  strip (l ++ m ++ r) = m.
Proof.
  intros Hl Hr Hh Hlast. unfold strip.
  rewrite app_assoc, rstrip_spaces by done.
  destruct m as [|c m].
  - rewrite app_nil_r.
    assert (rstrip l = []) as ->; [|done].
    unfold rstrip. rewrite <- (app_nil_r (reverse l)), lstrip_spaces; [done|].
    by apply Forall_reverse.
  - rewrite rstrip_fixed.
    + rewrite lstrip_spaces by done. by apply lstrip_fixed.
    + intros c' Hc'. apply Hlast. rewrite last_app in Hc'.
      destruct (last (c :: m)) as [c''|] eqn:Hm; [done|].
      by apply last_None in Hm.
Qed.

(** X4. Headers that differ only in whitespace around them, or in no-break
    spaces written for spaces, are given the same name; the script does
    nothing to tell them apart afterwards. *)
Theorem clean_name_merges l s r :
  Forall (λ c, isspace c = true) l →
  Forall (λ c, isspace c = true) r →
  clean_name (l ++ s ++ r) = clean_name s ∧
  clean_name (replace_nbsp s) = clean_name s.
Proof.
  intros Hl Hr. split.
  - unfold clean_name at 1. unfold replace_nbsp. rewrite !fmap_app.
    fold (replace_nbsp l) (replace_nbsp s) (replace_nbsp r).
    destruct (strip_split (replace_nbsp s)) as (l' & r' & Hs & Hl' & Hr').
    fold (clean_name s) in Hs. rewrite Hs.
    replace (replace_nbsp l ++ (l' ++ clean_name s ++ r') ++ replace_nbsp r)
      with ((replace_nbsp l ++ l') ++ clean_name s ++ (r' ++ replace_nbsp r))
      by (by rewrite <- !app_assoc).
    apply strip_unique; try apply strip_ends.
    + apply Forall_app. split; [by apply replace_nbsp_spaces|done].
    + apply Forall_app. split; [done|by apply replace_nbsp_spaces].
  - unfold clean_name.
    rewrite (replace_nbsp_fixed (replace_nbsp s)); [done|].
    apply replace_nbsp_free.
Qed.

Example clean_name_order_id :
  clean_name ([160; 32] ++ codes "Order" ++ [160] ++ codes "ID" ++ [9; 10])%N
    = codes "Order ID".
Proof. reflexivity. Qed.

(** ** The numeric-column guard *)

(** X5. A pass over an uploaded frame ends with the error "No numeric columns
    found in this CSV." exactly when no column of the frame holds numbers
    only (a frame without rows has no such column); the sidebar state plays
    no part. *)
Theorem no_numeric_stop P qs t ui :
  app P qs (Some t) ui
    = Stopped (Error "No numeric columns found in this CSV.")
  ↔ ∀ c, c ∈ columns t → is_numeric t c = false.
Proof.
  assert (numeric_cols t = [] ↔ ∀ c, c ∈ columns t → is_numeric t c = false)
    as Hiff.
  { unfold numeric_cols. split.
    - intros Hnil c Hc. destruct (is_numeric t c) eqn:Hn; [|done].
      assert (c ∈ filter (λ c, is_numeric t c = true) (columns t)) as Hin
        by (by apply list_elem_of_filter).
      rewrite Hnil in Hin. by apply elem_of_nil in Hin.
    - intros Hall. apply filter_none, Forall_forall.
      intros c Hc. by rewrite (Hall c Hc). }
  rewrite <- Hiff. split.
  - intros Happ. destruct (decide (numeric_cols t = [])) as [|Hne]; [done|].
    rewrite app_filter in Happ by done.
    destruct (filter_table P t (date_col ui) (date_range ui)) as [fd|];
      [|done].
    destruct (empty fd); [done|]. by destruct (panels qs fd ui).
  - intros Hnil. unfold app, script.
    unfold mbind, M_bind, bind, mret, M_ret, ret, load.
    cbn [lookup list_lookup]. by rewrite bool_decide_true.
Qed.

(** ** The filter engine, row by row *)

Lemma filter_fmap {A B} (f : A → B) (P : B → Prop) `{∀ y, Decision (P y)}
    (l : list A) :
  filter P (f <$> l) = f <$> filter (λ x, P (f x)) l.
Proof.
  induction l as [|x l IH]; [done|]. csimpl.
  rewrite !filter_cons, IH. by destruct (decide (P (f x))).
Qed.

Lemma cell_at_set_cell i r v :
  (i < length (cells r))%nat → cell_at i (set_cell i r v) = v.
Proof.
  intros Hi. unfold cell_at, set_cell. cbn.
  by rewrite list_lookup_insert_eq.
Qed.

Lemma in_range_not_missing s e v : in_range s e v = true → isna v = false.
Proof. by destruct v. Qed.

Lemma in_range_both s1 e1 s2 e2 v :
  in_range (Z.max s1 s2) (Z.min e1 e2) v
    = in_range s1 e1 v && in_range s2 e2 v.
Proof.
  unfold in_range. destruct (dt_date v) as [d|]; [|done].
  destruct (Z.leb_spec s1 d), (Z.leb_spec d e1),
    (Z.leb_spec s2 d), (Z.leb_spec d e2); simpl;
    repeat match goal with
           | |- context [(?a <=? ?b)] => destruct (Z.leb_spec a b)
           end; simpl; try done; lia.
Qed.

(** The frame the engine returns for a chosen range: the rows that carry a
    date after the parse, restricted to the range. *)
Lemma filter_table_range P t dc i s e :
  dc ≠ "None" →
  col_index dc (columns t) = Some i →
  filter_table P t dc (Some (s, e)) =
    Ok (Frame (columns t)
          (filter (λ r, in_range s e (cell_at i r) = true)
             (filter (λ x, isna (cell_at i x) = false)
                (zip_with (set_cell i) (rows t)
                   (to_datetime P (cell_at i <$> rows t)))))).
Proof.
  intros Hdc Hi.
  destruct (filter_table_defined P t dc (Some (s, e))) as [fd Hfd].
  { right. apply list_elem_of_lookup. exists i. by apply col_index_name. }
  rewrite Hfd. f_equal.
  destruct (filter_table_inv _ _ _ _ _ Hfd)
    as [[? _]|(_ & i' & valid & Hi' & Hcols & Hvalid & Hrows)]; [done|].
  rewrite Hi in Hi'. injection Hi' as <-. rewrite <- Hvalid.
  destruct fd as [cols rs]. cbn [columns rows] in *. subst cols. f_equal.
  destruct Hrows as [[-> ->]|(_ & s' & e' & Hin & ->)]; [done|].
  cbn in Hin. by injection Hin as <- <-.
Qed.

(** With the range left at its default, the rows that carry a date. *)
Lemma filter_table_default P t dc i :
  dc ≠ "None" →
  col_index dc (columns t) = Some i →
  filter_table P t dc None =
    Ok (Frame (columns t)
          (filter (λ x, isna (cell_at i x) = false)
             (zip_with (set_cell i) (rows t)
                (to_datetime P (cell_at i <$> rows t))))).
Proof.
  intros Hdc Hi.
  destruct (filter_table_defined P t dc None) as [fd Hfd].
  { right. apply list_elem_of_lookup. exists i. by apply col_index_name. }
  rewrite Hfd. f_equal.
  destruct (filter_table_inv _ _ _ _ _ Hfd)
    as [[? _]|(_ & i' & valid & Hi' & Hcols & Hvalid & Hrows)]; [done|].
  rewrite Hi in Hi'. injection Hi' as <-. rewrite <- Hvalid.
  destruct fd as [cols rs]. cbn [columns rows] in *. subst cols. f_equal.
  destruct Hrows as [[-> ->]|(_ & s & e & Hin & ->)]; [done|].
  cbn in Hin. injection Hin as <- <-.
  apply filter_all, Forall_forall. intros r Hr.
  assert (∃ ts, cell_at i r = CTime ts) as [ts Hc].
  { subst valid. by eapply parsed_rows_timestamp. }
  unfold in_range. rewrite Hc. cbn [dt_date].
  assert (ts ∈ omap timestamp (cell_at i <$> valid)) as Hts.
  { apply list_elem_of_omap. exists (CTime ts). split; [|done].
    rewrite <- Hc. by apply list_elem_of_fmap_2. }
  apply andb_true_intro. split; apply Z.leb_le; apply date_mono.
  - by apply series_min_le.
  - by apply series_max_ge.
Qed.

(** In a well-formed frame the date cell written into a row is the one read
    back, so the rows can be chosen by the parsed values. *)
Lemma parsed_rows_select (Q : cell → Prop) `{∀ v, Decision (Q v)}
    t dc i (dts : list cell) :
  col_index dc (columns t) = Some i →
  well_formed t →
  filter (λ r, Q (cell_at i r)) (zip_with (set_cell i) (rows t) dts)
    = uncurry (set_cell i) <$> filter (λ p, Q p.2) (zip (rows t) dts).
Proof.
  intros Hi Hwf. rewrite zip_with_zip, filter_fmap.
  f_equal. apply filter_ext_elem_of. intros [r v] Hp. cbn.
  rewrite cell_at_set_cell; [done|].
  unfold well_formed in Hwf. rewrite Forall_forall in Hwf.
  rewrite (Hwf r) by (by eapply elem_of_zip_l).
  by eapply col_index_lt.
Qed.

(** X6. With a date column and a range chosen, the rows the filter engine
    keeps are exactly the rows whose date parses and whose calendar day lies
    in the range, both ends included and whatever the time of day; they come
    in their original order, the date cell replaced by the timestamp. *)
Theorem range_filter_rows P t dc i s e fd :
  dc ≠ "None" →
  col_index dc (columns t) = Some i →
  well_formed t →
  filter_table P t dc (Some (s, e)) = Ok fd →
  columns fd = columns t ∧
  rows fd =
    uncurry (set_cell i)
      <$> filter (λ p, in_range s e p.2 = true)
            (zip (rows t) (to_datetime P (cell_at i <$> rows t))) ∧
  (∀ ts, in_range s e (CTime ts) = true ↔ s ≤ ts / ns_per_day ≤ e) ∧
  in_range s e CNaN = false.
Proof.
  intros Hdc Hi Hwf Hfd.
  rewrite (filter_table_range P t dc i s e Hdc Hi) in Hfd.
  injection Hfd as <-. cbn [columns rows].
  split; [done|]. split; [|split; [|done]].
  - rewrite list_filter_filter.
    etrans;
      [|exact (parsed_rows_select (λ v, in_range s e v = true) t dc i _
                 Hi Hwf)].
    apply list_filter_iff. intros r. split; [by intros [? _]|].
    intros Hin. split; [done|]. by eapply in_range_not_missing.
  - intros ts. unfold in_range. cbn [dt_date]. unfold date.
    rewrite andb_true_iff, !Z.leb_le. done.
Qed.

(** X7. With a date column chosen and the range left at its default (first
    to last valid date), the filter engine drops the rows whose date does not
    parse and no other row. *)
Theorem default_range_rows P t dc i fd :
  dc ≠ "None" →
  col_index dc (columns t) = Some i →
  well_formed t →
  filter_table P t dc None = Ok fd →
  columns fd = columns t ∧
  rows fd =
    uncurry (set_cell i)
      <$> filter (λ p, isna p.2 = false)
            (zip (rows t) (to_datetime P (cell_at i <$> rows t))).
Proof.
  intros Hdc Hi Hwf Hfd.
  rewrite (filter_table_default P t dc i Hdc Hi) in Hfd.
  injection Hfd as <-. cbn [columns rows]. split; [done|].
  etrans;
    [|exact (parsed_rows_select (λ v, isna v = false) t dc i _ Hi Hwf)].
  by apply list_filter_iff.
Qed.

(** X8. Filtering a filtered frame again, on the same date column with a
    second range, gives what one filter with the intersection of the two
    ranges gives on the loaded frame. *)
Theorem filters_compose P t dc s1 e1 s2 e2 t1 :
  filter_table P t dc (Some (s1, e1)) = Ok t1 →
  filter_table P t1 dc (Some (s2, e2))
    = filter_table P t dc (Some (Z.max s1 s2, Z.min e1 e2)).
Proof.
  intros Ht1.
  destruct (filter_table_inv _ _ _ _ _ Ht1)
    as [[-> ->]|(Hdc & i & valid & Hi & _ & Hvalid & _)].
  { by rewrite !filter_table_frames. }
  rewrite (filter_table_range P t dc i s1 e1 Hdc Hi) in Ht1.
  injection Ht1 as <-. rewrite <- Hvalid.
  rewrite (filter_table_range P t dc i _ _ Hdc Hi), <- Hvalid.
  rewrite (filter_table_range P _ dc i s2 e2 Hdc) by done.
  cbn [columns rows]. do 2 f_equal.
  set (kept := filter (λ r, in_range s1 e1 (cell_at i r) = true) valid).
  assert (Forall (λ r, ∃ ts, cell_at i r = CTime ts) kept) as Hts.
  { apply Forall_filter, Forall_forall. intros r Hr. subst valid.
    by eapply parsed_rows_timestamp. }
  assert (to_datetime P (cell_at i <$> kept) = cell_at i <$> kept) as ->.
  { unfold to_datetime.
    rewrite (proj2 (forallb_true_Forall is_datetime (cell_at i <$> kept)));
      [done|].
    apply Forall_fmap. eapply Forall_impl; [exact Hts|].
    intros r [ts Hr]. simpl. by rewrite Hr. }
  rewrite zip_with_set_cell_id.
  rewrite (filter_all (λ x, isna (cell_at i x) = false)).
  2:{ eapply Forall_impl; [exact Hts|]. intros r [ts Hr]. by rewrite Hr. }
  unfold kept. rewrite list_filter_filter.
  apply list_filter_iff. intros r. rewrite in_range_both, andb_true_iff.
  tauto.
Qed.

Lemma numeric_cols_rows t : numeric_cols t ≠ [] → empty t = false.
Proof.
  intros Hne. destruct (numeric_cols t) as [|c cs] eqn:Hc; [done|].
  assert (c ∈ numeric_cols t) as Hin by (rewrite Hc; left).
  destruct (numeric_cols_elem_of _ _ Hin) as (j & Hj & Hrows & _).
  destruct t as [[|c' cols] [|r rs]]; done.
Qed.

Lemma zip_snd_Forall {A B} (Q : B → Prop) (l : list A) (k : list B) :
  length k = length l → Forall (λ p, Q p.2) (zip l k) → Forall Q k.
Proof.
  intros Hlen Hall. rewrite <- (snd_zip l k) by lia. by apply Forall_fmap.
Qed.

(** X9. The warning "No data available after filtering." has no other
    causes than the two of the date filter: a pass over a well-formed frame
    that ends with it has a date column selected, and either no value of
    that column parses or a range was chosen that holds none of the parsed
    dates.  Without a date column, and with the range left at its default
    over at least one valid date, the warning does not occur. *)
Theorem no_data_warning_cause P qs t ui :
  well_formed t →
  app P qs (Some t) ui
    = Stopped (Warning "No data available after filtering.") →
  date_col ui ≠ "None" ∧
  ∃ i, col_index (date_col ui) (columns t) = Some i ∧
       let parsed := to_datetime P (cell_at i <$> rows t) in
       Forall (λ v, v = CNaN) parsed
       ∨ ∃ s e, date_range ui = Some (s, e) ∧
                Forall (λ v, in_range s e v = false) parsed.
Proof.
  intros Hwf Happ.
  destruct (decide (numeric_cols t = [])) as [Hnil|Hnum].
  { unfold app, script in Happ.
    unfold mbind, M_bind, bind, mret, M_ret, ret, load in Happ.
    cbn [lookup list_lookup] in Happ.
    by rewrite bool_decide_true in Happ. }
  rewrite app_filter in Happ by done.
  destruct (filter_table P t (date_col ui) (date_range ui)) as [fd|] eqn:Hfd;
    [|done].
  destruct (empty fd) eqn:Hempty; [|by destruct (panels qs fd ui)].
  destruct (filter_table_inv _ _ _ _ _ Hfd)
    as [[_ ->]|(Hdc & i & _ & Hi & _)].
  { by rewrite numeric_cols_rows in Hempty. }
  split; [done|]. exists i. split; [done|]. intros parsed.
  assert (columns t ≠ []) as Hcols by (intros Hc; by rewrite Hc in Hi).
  assert (length parsed = length (rows t)) as Hlen.
  { unfold parsed. by rewrite to_datetime_length, length_fmap. }
  destruct (date_range ui) as [[s e]|] eqn:Hrng.
  - right. exists s, e. split; [done|].
    rewrite (filter_table_range P t _ i s e Hdc Hi) in Hfd.
    injection Hfd as <-. rewrite empty_Frame in Hempty.
    apply bool_decide_eq_true in Hempty as [Hnil|?]; [|done].
    rewrite list_filter_filter in Hnil.
    apply (zip_snd_Forall _ (rows t)); [done|].
    apply Forall_forall. intros [r v] Hp. cbn.
    destruct (in_range s e v) eqn:Hin; [|done]. exfalso.
    assert (i < length (cells r))%nat as Hir.
    { unfold well_formed in Hwf. rewrite Forall_forall in Hwf.
      rewrite (Hwf r) by (by eapply elem_of_zip_l). by eapply col_index_lt. }
    eapply (filter_nil_not_elem_of _ _ (set_cell i r v)); [exact Hnil| |].
    + cbn beta. rewrite cell_at_set_cell by done. split; [done|].
      by eapply in_range_not_missing.
    + rewrite zip_with_zip.
      by apply (list_elem_of_fmap_2 (uncurry (set_cell i)) _ (r, v)).
  - left.
    rewrite (filter_table_default P t _ i Hdc Hi) in Hfd.
    injection Hfd as <-. rewrite empty_Frame in Hempty.
    apply bool_decide_eq_true in Hempty as [Hnil|?]; [|done].
    apply (zip_snd_Forall _ (rows t)); [done|].
    apply Forall_forall. intros [r v] Hp. cbn.
    destruct (decide (v = CNaN)) as [|Hv]; [done|]. exfalso.
    assert (i < length (cells r))%nat as Hir.
    { unfold well_formed in Hwf. rewrite Forall_forall in Hwf.
      rewrite (Hwf r) by (by eapply elem_of_zip_l). by eapply col_index_lt. }
    eapply (filter_nil_not_elem_of _ _ (set_cell i r v)); [exact Hnil| |].
    + cbn beta. rewrite cell_at_set_cell by done. by destruct v.
    + rewrite zip_with_zip.
      by apply (list_elem_of_fmap_2 (uncurry (set_cell i)) _ (r, v)).
Qed.

(** ** Passes that render and passes that crash *)

Lemma time_series_panel_defined fd ui j :
  col_index (value_col ui) (columns fd) = Some j →
  Forall (λ r, is_number (cell_at j r) = true) (rows fd) →
  date_col ui = "None"
  ∨ (date_col ui ≠ value_col ui ∧
     ∃ i, col_index (date_col ui) (columns fd) = Some i) →
  ∃ s, time_series_panel fd ui = Ok s.
Proof.
  intros Hj Hnum Hdate. unfold time_series_panel.
  destruct (String.eqb_spec (date_col ui) "None") as [|Hdc]; [by eexists|].
  destruct Hdate as [|(Hne & i & Hi)]; [done|].
  rewrite (ts_df_rows fd _ _ i j Hi Hj Hnum Hne). cbn.
  match goal with |- context [if ?b then _ else _] => destruct b end;
    by eexists.
Qed.

Lemma grouped_sum_inv t gc vc groups :
  grouped_sum t gc vc = Ok groups →
  ∃ i j,
    col_index gc (columns t) = Some i ∧
    col_index vc (columns t) = Some j ∧
    Forall (λ r, is_number (cell_at j r) = true) (rows t).
Proof.
  unfold grouped_sum, column.
  destruct (col_index gc (columns t)) as [i|]; [|done].
  destruct (col_index vc (columns t)) as [j|]; [|done]. cbn.
  unfold values.
  destruct (forallb is_number (cell_at j <$> rows t)) eqn:Hall; [|done].
  intros _. exists i, j. split; [done|]. split; [done|].
  apply forallb_true_Forall in Hall. by apply Forall_fmap in Hall.
Qed.

(** The date column of a frame the engine returns, when one is selected. *)
Lemma filter_table_date_col P t dc rng fd :
  filter_table P t dc rng = Ok fd →
  dc = "None" ∨ ∃ i, col_index dc (columns fd) = Some i.
Proof.
  intros Hfd. destruct (decide (dc = "None")) as [|Hdc]; [by left|]. right.
  destruct (filter_table_rows _ _ _ _ _ Hfd) as (Hcols & _ & Hdates).
  destruct (Hdates Hdc) as (i & Hi & _). exists i. by rewrite Hcols.
Qed.

(** X11. When the group column is the metric column and the date column is
    not, every pass that gets past the filters ends in the exception pandas
    raises on building the bar frame, "cannot insert <column>, already
    exists"; the KPIs and the time-series panel have been computed by then,
    the distribution is not reached. *)
Theorem same_column_raises P qs t ui fd :
  value_col ui ∈ numeric_cols t →
  group_col ui = value_col ui →
  date_col ui ≠ value_col ui →
  filter_table P t (date_col ui) (date_range ui) = Ok fd →
  rows fd ≠ [] →
  (∃ k s, key_metrics fd (value_col ui) = Ok k ∧
          time_series_panel fd ui = Ok s) ∧
  app P qs (Some t) ui =
    Crashed (ValueError
               ("cannot insert " +:+ value_col ui +:+ ", already exists")).
Proof.
  intros Hvc Hgv Hdv Hfd Hrows.
  destruct (numeric_cols_elem_of _ _ Hvc) as (j & Hj & _ & Hnum).
  destruct (filter_table_metric _ _ _ _ _ _ _ Hfd Hj Hdv Hnum) as [Hj' Hnum'].
  pose proof (key_metrics_defined fd _ j Hj' Hnum') as Hk.
  destruct (time_series_panel_defined fd ui j Hj' Hnum') as [s Hs].
  { destruct (filter_table_date_col _ _ _ _ _ Hfd) as [|Hd]; auto. }
  split; [by eexists _, _|].
  rewrite app_filter.
  2:{ intros Hnil. rewrite Hnil in Hvc. by apply elem_of_nil in Hvc. }
  rewrite Hfd, (rows_empty_false fd j _ Hj' Hrows).
  unfold panels. rewrite Hk. cbn. rewrite Hs. cbn.
  unfold grouped_bar_panel, bar_df. rewrite Hgv.
  rewrite (grouped_sum_rows fd _ _ j j Hj' Hj' Hnum').
  cbn -[slider total_pages page_df].
  unfold reset_index. by rewrite String.eqb_refl.
Qed.

(** X12. When the date column is the metric column, every pass that gets
    past the filters ends in the TypeError pandas raises on summing a
    datetime column: the metric was overwritten with timestamps, and the
    KPIs are the first to read it. *)
Theorem date_on_metric_raises P qs t ui fd :
  numeric_cols t ≠ [] →
  date_col ui = value_col ui →
  date_col ui ≠ "None" →
  filter_table P t (date_col ui) (date_range ui) = Ok fd →
  rows fd ≠ [] →
  ∃ msg, app P qs (Some t) ui = Crashed (TypeError msg).
Proof.
  intros Hnum Hdv Hdc Hfd Hrows. eexists.
  rewrite app_filter by done. rewrite Hfd.
  destruct (filter_table_rows _ _ _ _ _ Hfd) as (Hcols & _ & Hdates).
  destruct (Hdates Hdc) as (i & Hi & Hts). rewrite <- Hcols in Hi.
  rewrite (rows_empty_false fd i _ Hi Hrows).
  unfold panels, key_metrics, column. rewrite <- Hdv, Hi. cbn.
  unfold values.
  assert (forallb is_number (cell_at i <$> rows fd) = false) as ->; [|done].
  destruct (rows fd) as [|r rs]; [done|].
  apply Forall_cons in Hts as [[ts Hr] _]. csimpl. by rewrite Hr.
Qed.

Lemma page_df_nonempty {A} (bar : list A) (P page : Z) :
  0 < P → 1 ≤ page ≤ total_pages (length bar) P → page_df bar P page ≠ [].
Proof.
  intros HP Hpage. rewrite (page_df_slice bar P page HP Hpage).
  destruct (total_pages_bounds (length bar) P HP) as [Hb|[_ Hz]]; [|lia].
  unfold rows_between.
  intros Hnil%(f_equal length). rewrite length_take, length_drop in Hnil.
  simpl in Hnil. nia.
Qed.

Lemma panels_inv qs fd ui d :
  panels qs fd ui = Ok d →
  ∃ k s b xs,
    key_metrics fd (value_col ui) = Ok k ∧
    time_series_panel fd ui = Ok s ∧
    grouped_bar_panel qs fd ui = Ok b ∧
    distribution_panel fd ui = Ok xs ∧
    d = Dashboard k s b xs.
Proof.
  unfold panels. intros Hpanels.
  destruct (key_metrics fd (value_col ui)) as [k|]; [|done]. cbn in Hpanels.
  destruct (time_series_panel fd ui) as [s|]; [|done]. cbn in Hpanels.
  destruct (grouped_bar_panel qs fd ui) as [b|]; [|done]. cbn in Hpanels.
  destruct (distribution_panel fd ui) as [xs|]; [|done]. cbn in Hpanels.
  injection Hpanels as <-. by eexists _, _, _, _.
Qed.

Lemma app_rendered P qs file ui d :
  app P qs file ui = Rendered d →
  ∃ t fd,
    file = Some t ∧
    filter_table P t (date_col ui) (date_range ui) = Ok fd ∧
    empty fd = false ∧
    panels qs fd ui = Ok d.
Proof.
  destruct file as [t|]; [|done]. intros Happ.
  destruct (decide (numeric_cols t = [])) as [Hnil|Hnum].
  { unfold app, script in Happ.
    unfold mbind, M_bind, bind, mret, M_ret, ret, load in Happ.
    cbn [lookup list_lookup] in Happ.
    by rewrite bool_decide_true in Happ. }
  rewrite app_filter in Happ by done.
  destruct (filter_table P t (date_col ui) (date_range ui)) as [fd|] eqn:Hfd;
    [|done].
  destruct (empty fd) eqn:Hempty; [done|].
  destruct (panels qs fd ui) as [d'|] eqn:Hpanels; [|done].
  injection Happ as ->. by exists t, fd.
Qed.

Lemma grouped_bar_panel_inv qs fd ui b :
  grouped_bar_panel qs fd ui = Ok b →
  ∃ bar i j,
    bar_df qs fd (group_col ui) (value_col ui) = Ok bar ∧
    col_index (group_col ui) (columns fd) = Some i ∧
    col_index (value_col ui) (columns fd) = Some j ∧
    Forall (λ r, is_number (cell_at j r) = true) (rows fd) ∧
    group_col ui ≠ value_col ui.
Proof.
  intros Hb.
  assert (∃ bar, bar_df qs fd (group_col ui) (value_col ui) = Ok bar)
    as [bar Hbar].
  { unfold grouped_bar_panel in Hb.
    destruct (bar_df qs fd (group_col ui) (value_col ui));
      [by eexists|done]. }
  assert (∃ groups, grouped_sum fd (group_col ui) (value_col ui) = Ok groups)
    as [groups Hg].
  { unfold bar_df in Hbar.
    destruct (grouped_sum fd (group_col ui) (value_col ui));
      [by eexists|done]. }
  destruct (bar_df_frame _ _ _ _ _ _ Hg Hbar) as [Hgv _].
  destruct (grouped_sum_inv _ _ _ _ Hg) as (i & j & Hi & Hj & Hnum').
  by exists bar, i, j.
Qed.

(** X13. A pass renders a dashboard only when there are more groups than
    bars per page and the metric has at least one value.  The bar panel
    then shows a page that is not empty, under a page number within the
    page count; its branch "No data to display." is never taken. *)
Theorem bar_panel_always_plots P qs file ui d :
  app P qs file ui = Rendered d →
  ∃ t fd bar per_page shown,
    file = Some t ∧
    filter_table P t (date_col ui) (date_range ui) = Ok fd ∧
    bar_df qs fd (group_col ui) (value_col ui) = Ok bar ∧
    5 ≤ per_page ≤ 40 ∧
    per_page < Z.of_nat (length bar) ∧
    1 ≤ shown ≤ total_pages (length bar) per_page ∧
    grouped_bar d =
      BarPlot (page_df bar per_page shown) shown
        (total_pages (length bar) per_page) ∧
    page_df bar per_page shown ≠ [] ∧
    ∃ x, Some x ∈ distribution d.
Proof.
  intros (t & fd & -> & Hfd & Hempty & Hpanels)%app_rendered.
  destruct (panels_inv _ _ _ _ Hpanels) as (k & s & b & xs & _ & _ & Hb & Hd & ->).
  destruct (grouped_bar_panel_inv _ _ _ _ Hb)
    as (bar & i & j & Hbar & Hi & Hj & Hnum & Hgv).
  destruct (empty_false_rows _ Hempty) as [Hrows _].
  destruct (grouped_bar_panel_defined qs fd ui i j Hi Hj Hnum Hrows Hgv)
    as (bar' & per_page & Hbar' & Hne & Hper & HP & Hfit & Hmore).
  rewrite Hbar in Hbar'. injection Hbar' as <-.
  destruct (decide (Z.of_nat (length bar) ≤ per_page)) as [Hone|Hmany].
  { destruct (Hfit Hone) as [msg Hmsg]. congruence. }
  destruct Hmore as (shown & Hin & _ & Hpanel); [lia|].
  rewrite Hb in Hpanel. injection Hpanel as ->.
  exists t, fd, bar, per_page, shown. cbn [grouped_bar distribution].
  split; [done|]. split; [done|]. split; [done|]. split; [done|].
  split; [lia|]. split; [done|]. split; [done|].
  split; [apply page_df_nonempty; [lia|done]|].
  rewrite (distribution_panel_defined fd ui j Hj Hnum) in Hd.
  unfold hist in Hd. case_bool_decide as Hgaps; [done|].
  injection Hd as <-.
  destruct (omap id (number ∘ cell_at j <$> rows fd)) as [|x l] eqn:Hpresent.
  { destruct Hgaps. split; [|done]. by intros ?%fmap_nil_inv. }
  exists x.
  assert (x ∈ omap id (number ∘ cell_at j <$> rows fd)) as Hx
    by (rewrite Hpresent; left).
  apply list_elem_of_omap in Hx as (o & Ho & Hid). cbn in Hid. by subst o.
Qed.

(** X21. When all groups fit on one page, a pass that gets as far as the
    bar panel ends there, in the exception of the Page slider, which is
    built with the bounds 1 and 1: the KPIs and the time-series panel have
    been shown, no bar and no distribution is drawn. *)
Theorem one_page_raises P qs t ui fd bar per_page :
  value_col ui ∈ numeric_cols t →
  date_col ui ≠ value_col ui →
  filter_table P t (date_col ui) (date_range ui) = Ok fd →
  rows fd ≠ [] →
  bar_df qs fd (group_col ui) (value_col ui) = Ok bar →
  slider 5 40 15 5 (bars_per_page ui) = Ok per_page →
  Z.of_nat (length bar) ≤ per_page →
  (∃ k s, key_metrics fd (value_col ui) = Ok k ∧
          time_series_panel fd ui = Ok s) ∧
  ∃ msg, app P qs (Some t) ui = Crashed (StreamlitAPIException msg).
Proof.
  intros Hvc Hdv Hfd Hrows Hbar Hper Hfit.
  destruct (numeric_cols_elem_of _ _ Hvc) as (j & Hj & _ & Hnum).
  destruct (filter_table_metric _ _ _ _ _ _ _ Hfd Hj Hdv Hnum) as [Hj' Hnum'].
  pose proof (key_metrics_defined fd _ j Hj' Hnum') as Hk.
  destruct (time_series_panel_defined fd ui j Hj' Hnum') as [s Hs].
  { destruct (filter_table_date_col _ _ _ _ _ Hfd) as [|Hd]; auto. }
  split; [by eexists _, _|].
  assert (∃ groups, grouped_sum fd (group_col ui) (value_col ui) = Ok groups)
    as [groups Hg].
  { unfold bar_df in Hbar.
    destruct (grouped_sum fd (group_col ui) (value_col ui));
      [by eexists|done]. }
  destruct (bar_df_frame _ _ _ _ _ _ Hg Hbar) as [Hgv _].
  destruct (grouped_sum_inv _ _ _ _ Hg) as (i & j' & Hi & _).
  destruct (grouped_bar_panel_defined qs fd ui i j Hi Hj' Hnum' Hrows Hgv)
    as (bar' & per_page' & Hbar' & _ & Hper' & _ & Hraise & _).
  rewrite Hbar in Hbar'. injection Hbar' as <-.
  rewrite Hper in Hper'. injection Hper' as <-.
  destruct (Hraise Hfit) as [msg Hmsg]. exists msg.
  rewrite app_filter.
  2:{ intros Hnil. rewrite Hnil in Hvc. by apply elem_of_nil in Hvc. }
  rewrite Hfd, (rows_empty_false fd j _ Hj' Hrows).
  unfold panels. rewrite Hk. cbn. rewrite Hs. cbn. by rewrite Hmsg.
Qed.

(** ** KPIs *)

Lemma nanmax_present xs ys :
  omap id xs ≡ₚ omap id ys → nanmax xs = nanmax ys.
Proof.
  intros Hp. destruct (nanmax xs) as [m|] eqn:Hmax.
  - symmetry. apply nanmax_Some. apply nanmax_Some in Hmax as [Hin Hle].
    split; [by rewrite <- Hp|]. intros x Hx. apply Hle. by rewrite Hp.
  - symmetry. apply nanmax_None. apply nanmax_None in Hmax.
    rewrite Hmax in Hp. by apply Permutation_nil_l in Hp.
Qed.

Lemma present_filter j (rs : list row) :
  omap (number ∘ cell_at j) (filter (λ r, isna (cell_at j r) = false) rs)
    = omap (number ∘ cell_at j) rs.
Proof.
  induction rs as [|r rs IH]; [done|]. rewrite filter_cons.
  destruct (decide (isna (cell_at j r) = false)) as [Hna|Hna]; csimpl.
  - by rewrite IH.
  - rewrite IH. unfold compose. by destruct (cell_at j r).
Qed.

(** X15. The maximum KPI is NaN exactly when the metric has no value;
    otherwise it is one of the values present and no value present exceeds
    it.  The rows with a missing metric and the order of the rows play no
    part: a frame that holds the other rows, in any order, has the same
    maximum. *)
Theorem kpi_max_spec t vc k :
  key_metrics t vc = Ok k →
  ∃ j, col_index vc (columns t) = Some j ∧
       let present := omap (number ∘ cell_at j) (rows t) in
       (kpi_max k = None ↔ present = []) ∧
       (∀ m, kpi_max k = Some m ↔
             m ∈ present ∧ ∀ x, x ∈ present → (x ≤ m)%Qc) ∧
       (∀ t', columns t' = columns t →
              rows t' ≡ₚ filter (λ r, isna (cell_at j r) = false) (rows t) →
              ∃ k', key_metrics t' vc = Ok k' ∧ kpi_max k' = kpi_max k).
Proof.
  intros Hk. destruct (key_metrics_inv _ _ _ Hk) as (j & Hj & _ & Hnum & ->).
  exists j. split; [done|]. intros present. cbn [kpi_max].
  assert (omap id (number ∘ cell_at j <$> rows t) = present) as Hpresent
    by exact (omap_fmap (number ∘ cell_at j) id (rows t)).
  split; [by rewrite nanmax_None, Hpresent|].
  split; [intros m; by rewrite nanmax_Some, Hpresent|].
  intros t' Hcols Hrows.
  assert (Forall (λ r, is_number (cell_at j r) = true) (rows t')) as Hnum'.
  { rewrite Hrows. apply Forall_forall.
    intros r [_ Hr]%list_elem_of_filter.
    rewrite Forall_forall in Hnum. by apply Hnum. }
  rewrite <- Hcols in Hj.
  eexists. split; [exact (key_metrics_defined t' vc j Hj Hnum')|].
  cbn [kpi_max]. apply nanmax_present.
  rewrite !omap_fmap.
  change (id ∘ (number ∘ cell_at j)) with (number ∘ cell_at j).
  by rewrite Hrows, present_filter.
Qed.

(** ** The time series, again *)

(** X17. With a date column active, the values of the time series add up to
    the KPI total of the filtered frame: every row that is left has a date
    and is counted on exactly one day. *)
Theorem series_total P t dc vc rng fd :
  dc ≠ "None" →
  vc ∈ numeric_cols t →
  dc ≠ vc →
  filter_table P t dc rng = Ok fd →
  ∃ ts k,
    ts_df fd dc vc = Ok ts ∧
    key_metrics fd vc = Ok k ∧
    Qcsum (ts.*2) = kpi_total k.
Proof.
  intros Hdc Hvc Hne Hfd.
  destruct (numeric_cols_elem_of _ _ Hvc) as (j & Hj & _ & Hnum).
  destruct (filter_table_metric _ _ _ _ _ _ _ Hfd Hj Hne Hnum) as [Hj' Hnum'].
  destruct (filter_table_rows _ _ _ _ _ Hfd) as (Hcols & _ & Hdates).
  destruct (Hdates Hdc) as (i & Hi & Hts). rewrite <- Hcols in Hi.
  eexists _, _.
  split; [exact (ts_df_rows fd dc vc i j Hi Hj' Hnum' Hne)|].
  split; [exact (key_metrics_defined fd vc j Hj' Hnum')|].
  cbn [kpi_total].
  rewrite groupby_sum_total by apply merge_sort_dates.
  rewrite (dated_values (dt_date ∘ cell_at i) (number ∘ cell_at j)); [done|].
  eapply Forall_impl; [exact Hts|]. intros r [ts Hr]. cbn.
  rewrite Hr. by eexists.
Qed.

(** X18. With a date column other than the metric column active and two or
    more distinct calendar dates in the filtered frame, the time-series
    panel plots the series, one point per date. *)
Theorem series_plotted P t ui fd :
  value_col ui ∈ numeric_cols t →
  date_col ui ≠ "None" →
  date_col ui ≠ value_col ui →
  filter_table P t (date_col ui) (date_range ui) = Ok fd →
  (2 ≤ length (distinct_dates fd (date_col ui)))%nat →
  ∃ ts,
    ts_df fd (date_col ui) (value_col ui) = Ok ts ∧
    length ts = length (distinct_dates fd (date_col ui)) ∧
    time_series_panel fd ui = Ok (SeriesPlot ts).
Proof.
  intros Hvc Hdc Hne Hfd Hmany.
  destruct (numeric_cols_elem_of _ _ Hvc) as (j & Hj & _ & Hnum).
  destruct (filter_table_metric _ _ _ _ _ _ _ Hfd Hj Hne Hnum) as [Hj' Hnum'].
  destruct (filter_table_rows _ _ _ _ _ Hfd) as (Hcols & _ & Hdates).
  destruct (Hdates Hdc) as (i & Hi & _). rewrite <- Hcols in Hi.
  pose proof (ts_df_rows fd _ _ i j Hi Hj' Hnum' Hne) as Hts.
  set (ts := groupby_sum _ _) in Hts.
  assert (length ts = length (distinct_dates fd (date_col ui))) as Hlen.
  { unfold ts. rewrite groupby_sum_length by apply merge_sort_dates.
    rewrite (dated_keys (dt_date ∘ cell_at i) (number ∘ cell_at j)).
    by rewrite (distinct_dates_rows fd _ i Hi). }
  exists ts. split; [done|]. split; [done|].
  unfold time_series_panel.
  destruct (String.eqb_spec (date_col ui) "None") as [|_]; [done|].
  rewrite Hts. cbn.
  by rewrite (proj2 (Nat.leb_gt _ _)) by lia.
Qed.

(** ** Pages, again *)

Lemma length_rows_between {A} (l : list A) (a b : Z) :
  0 ≤ a ≤ b → b ≤ Z.of_nat (length l) →
  Z.of_nat (length (rows_between l a b)) = b - a.
Proof.
  intros Hab Hb. unfold rows_between.
  rewrite length_take, length_drop. lia.
Qed.

(** X19. Every page before the last holds exactly [bars_per_page] bars; the
    last page holds the rest, at least one bar and at most
    [bars_per_page]. *)
Theorem page_sizes {A} (bar : list A) (P k : Z) :
  0 < P →
  1 ≤ k ≤ total_pages (length bar) P →
  let N := Z.of_nat (length bar) in
  let pages := total_pages (length bar) P in
  (k < pages → Z.of_nat (length (page_df bar P k)) = P) ∧
  (k = pages →
     Z.of_nat (length (page_df bar P k)) = N - (pages - 1) * P ∧
     1 ≤ N - (pages - 1) * P ≤ P).
Proof.
  intros HP Hk N pages.
  rewrite (page_df_slice bar P k HP Hk). fold N.
  destruct (total_pages_bounds (length bar) P HP) as [Hb|[_ Hz]]; [|lia].
  fold N pages in Hb. fold pages in Hk. split.
  - intros Hlt. rewrite length_rows_between by nia. nia.
  - intros ->. rewrite length_rows_between by nia. nia.
Qed.

Lemma bar_df_inv qs t gc vc bar :
  bar_df qs t gc vc = Ok bar → ∃ groups, bar = sort_values qs groups.
Proof.
  unfold bar_df.
  destruct (grouped_sum t gc vc) as [groups|]; [|done]. cbn.
  unfold reset_index. destruct (String.eqb gc vc); [done|]. cbn.
  intros [= <-]. by eexists.
Qed.

(** A page with a positive index is a window of the list: it starts at row
    (k-1)*P and ends before row k*P. *)
Lemma page_df_window {A} (l : list A) (P k : Z) :
  0 < P → 1 ≤ k →
  ∃ m, page_df l P k = take m (drop (Z.to_nat ((k - 1) * P)) l) ∧
       (Z.to_nat ((k - 1) * P) + m ≤ Z.to_nat (k * P))%nat.
Proof.
  intros HP Hk. unfold page_df, iloc.
  set (N := Z.of_nat (length l)).
  destruct (Z.ltb_spec ((k - 1) * P) 0); [nia|].
  destruct (Z.ltb_spec ((k - 1) * P + P) 0); [nia|].
  destruct (decide ((k - 1) * P ≤ N)) as [Hin|Hout].
  - rewrite (Z.min_l ((k - 1) * P)) by done.
    eexists. split; [done|]. lia.
  - exists 0%nat. split; [|nia].
    rewrite take_0, drop_ge; [by rewrite take_nil|]. unfold N in *. lia.
Qed.

Lemma elem_of_take_le {A} (l : list A) (p n : nat) x :
  (p ≤ n)%nat → x ∈ take p l → x ∈ take n l.
Proof.
  intros Hpn Hx.
  replace p with (p `min` n)%nat in Hx by lia.
  rewrite <- take_take in Hx.
  eapply elem_of_sublist; [exact Hx|apply sublist_take].
Qed.

Lemma page_df_sublist {A} (l : list A) (P k : Z) :
  page_df l P k `sublist_of` l.
Proof.
  unfold page_df, iloc.
  etrans; [apply sublist_take|apply sublist_drop].
Qed.

(** X20. The pages show the bars in descending order of their sums: each
    page is sorted downwards, and no bar of a later page has a larger sum
    than a bar of an earlier page. *)
Theorem pages_descend qs t gc vc bar (P i : Z) :
  bar_df qs t gc vc = Ok bar →
  0 < P →
  1 ≤ i →
  StronglySorted (λ a b, (b.2 ≤ a.2)%Qc) (page_df bar P i) ∧
  ∀ j x y, i < j → x ∈ page_df bar P i → y ∈ page_df bar P j →
    (y.2 ≤ x.2)%Qc.
Proof.
  intros Hbar HP Hi.
  destruct (bar_df_inv _ _ _ _ _ Hbar) as [groups ->].
  pose proof (sort_values_sorted qs groups) as Hsorted.
  set (l := sort_values qs groups) in *. split.
  - eapply StronglySorted_sublist; [apply page_df_sublist|done].
  - intros j x y Hij Hx Hy.
    destruct (page_df_window l P i HP Hi) as (m & Hpi & Hm).
    destruct (page_df_window l P j HP ltac:(lia)) as (m' & Hpj & _).
    rewrite Hpi in Hx. rewrite Hpj in Hy. clear Hpi Hpj.
    set (n := Z.to_nat (i * P)) in *.
    assert (x ∈ take n l) as Hx'.
    { apply (elem_of_take_le l (Z.to_nat ((i - 1) * P) + m) n); [done|].
      rewrite <- (take_drop (Z.to_nat ((i - 1) * P)) (take _ l)).
      rewrite take_take, Nat.min_l by lia.
      apply elem_of_app. right.
      by rewrite <- take_drop_commute. }
    assert (y ∈ drop n l) as Hy'.
    { apply (elem_of_sublist _ _ _ Hy).
      replace (Z.to_nat ((j - 1) * P)) with (n + (Z.to_nat ((j - 1) * P) - n))%nat
        by (unfold n; nia).
      rewrite <- drop_drop.
      etrans; [apply sublist_take|apply sublist_drop]. }
    rewrite <- (take_drop n l) in Hsorted.
    exact (StronglySorted_app_1_elem_of _ _ _ x y Hsorted Hx' Hy').
Qed.

(** ** Instances of the further properties *)

Lemma clean_name_merges_witness :
  Forall (λ c, isspace c = true) [32%N] ∧
  Forall (λ c, isspace c = true) [9%N; 160%N] ∧
  clean_name ([32%N] ++ codes "Net Sales" ++ [9%N; 160%N])
    = clean_name (codes "Net Sales") ∧
  clean_name (replace_nbsp (codes "Net Sales")) = clean_name (codes "Net Sales").
Proof.
  assert (Forall (λ c, isspace c = true) [32%N]) as Hl
    by (repeat constructor).
  assert (Forall (λ c, isspace c = true) [9%N; 160%N]) as Hr
    by (repeat constructor).
  split; [exact Hl|]. split; [exact Hr|].
  exact (clean_name_merges [32%N] (codes "Net Sales") [9%N; 160%N] Hl Hr).
Defined.

Lemma range_filter_rows_witness :
  "date" ≠ "None" ∧
  col_index "date" (columns sales) = Some 0%nat ∧
  well_formed sales ∧
  filter_table iso_parser sales "date" (Some (19723, 19723))
    = Ok sales_first_day ∧
  columns sales_first_day = columns sales ∧
  rows sales_first_day =
    uncurry (set_cell 0)
      <$> filter (λ p, in_range 19723 19723 p.2 = true)
            (zip (rows sales)
               (to_datetime iso_parser (cell_at 0 <$> rows sales))) ∧
  (∀ ts, in_range 19723 19723 (CTime ts) = true
         ↔ 19723 ≤ ts / ns_per_day ≤ 19723) ∧
  in_range 19723 19723 CNaN = false.
Proof.
  assert ("date" ≠ "None") as Hdc by discriminate.
  assert (well_formed sales) as Hwf by (repeat constructor).
  assert (filter_table iso_parser sales "date" (Some (19723, 19723))
          = Ok sales_first_day) as Hfd by (vm_compute; reflexivity).
  split; [exact Hdc|]. split; [reflexivity|]. split; [exact Hwf|].
  split; [exact Hfd|].
  exact (range_filter_rows iso_parser sales "date" 0%nat 19723 19723
           sales_first_day Hdc eq_refl Hwf Hfd).
Defined.

Lemma default_range_rows_witness :
  "date" ≠ "None" ∧
  col_index "date" (columns sparse) = Some 0%nat ∧
  well_formed sparse ∧
  filter_table iso_parser sparse "date" None = Ok sparse_filtered ∧
  columns sparse_filtered = columns sparse ∧
  rows sparse_filtered =
    uncurry (set_cell 0)
      <$> filter (λ p, isna p.2 = false)
            (zip (rows sparse)
               (to_datetime iso_parser (cell_at 0 <$> rows sparse))).
Proof.
  assert ("date" ≠ "None") as Hdc by discriminate.
  assert (well_formed sparse) as Hwf by (repeat constructor).
  assert (filter_table iso_parser sparse "date" None = Ok sparse_filtered)
    as Hfd by (vm_compute; reflexivity).
  split; [exact Hdc|]. split; [reflexivity|]. split; [exact Hwf|].
  split; [exact Hfd|].
  exact (default_range_rows iso_parser sparse "date" 0%nat sparse_filtered
           Hdc eq_refl Hwf Hfd).
Defined.

Lemma filters_compose_witness :
  filter_table iso_parser sales "date" (Some (19723, 19724))
    = Ok sales_filtered ∧
  filter_table iso_parser sales_filtered "date" (Some (19720, 19723))
    = filter_table iso_parser sales "date"
        (Some (Z.max 19723 19720, Z.min 19724 19723)).
Proof.
  assert (filter_table iso_parser sales "date" (Some (19723, 19724))
          = Ok sales_filtered) as Hfd by (vm_compute; reflexivity).
  split; [exact Hfd|].
  exact (filters_compose iso_parser sales "date" 19723 19724 19720 19723
           sales_filtered Hfd).
Defined.

Lemma no_data_warning_cause_witness :
  well_formed undated ∧
  app iso_parser stable_sort (Some undated)
      (Controls "amount" "region" "date" None 5 1)
    = Stopped (Warning "No data available after filtering.") ∧
  "date" ≠ "None" ∧
  ∃ i, col_index "date" (columns undated) = Some i ∧
       let parsed := to_datetime iso_parser (cell_at i <$> rows undated) in
       Forall (λ v, v = CNaN) parsed
       ∨ ∃ s e, (None : option (Z * Z)) = Some (s, e) ∧
                Forall (λ v, in_range s e v = false) parsed.
Proof.
  assert (well_formed undated) as Hwf by (repeat constructor).
  assert (app iso_parser stable_sort (Some undated)
            (Controls "amount" "region" "date" None 5 1)
          = Stopped (Warning "No data available after filtering.")) as Hstop
    by by_evaluation.
  split; [exact Hwf|]. split; [exact Hstop|].
  exact (no_data_warning_cause iso_parser stable_sort undated
           (Controls "amount" "region" "date" None 5 1) Hwf Hstop).
Defined.

Lemma same_column_raises_witness :
  "amount" ∈ numeric_cols sales ∧
  "None" ≠ "amount" ∧
  filter_table iso_parser sales "None" None = Ok sales ∧
  rows sales ≠ [] ∧
  (∃ k s, key_metrics sales "amount" = Ok k ∧
          time_series_panel sales
            (Controls "amount" "amount" "None" None 5 1) = Ok s) ∧
  app iso_parser stable_sort (Some sales)
      (Controls "amount" "amount" "None" None 5 1) =
    Crashed (ValueError ("cannot insert " +:+ "amount" +:+ ", already exists")).
Proof.
  assert ("amount" ∈ numeric_cols sales) as Hvc by by_evaluation.
  assert ("None" ≠ "amount") as Hdv by discriminate.
  assert (filter_table iso_parser sales "None" None = Ok sales) as Hfd
    by (vm_compute; reflexivity).
  assert (rows sales ≠ []) as Hrows by discriminate.
  split; [exact Hvc|]. split; [exact Hdv|]. split; [exact Hfd|].
  split; [exact Hrows|].
  exact (same_column_raises iso_parser stable_sort sales
           (Controls "amount" "amount" "None" None 5 1) sales
           Hvc eq_refl Hdv Hfd Hrows).
Defined.

Lemma date_on_metric_raises_witness :
  numeric_cols sales ≠ [] ∧
  "amount" ≠ "None" ∧
  filter_table iso_parser sales "amount" None =
    Ok (Frame ["date"; "region"; "amount"]
          [Row 0 [CStr "2024-01-01"; CStr "east"; CTime 10];
           Row 1 [CStr "2024-01-01"; CStr "west"; CTime 5];
           Row 2 [CStr "2024-01-02"; CStr "east"; CTime 7]]) ∧
  ∃ msg, app iso_parser stable_sort (Some sales)
             (Controls "amount" "region" "amount" None 5 1)
           = Crashed (TypeError msg).
Proof.
  assert (numeric_cols sales ≠ []) as Hnum by by_evaluation.
  assert ("amount" ≠ "None") as Hdc by discriminate.
  assert (filter_table iso_parser sales "amount" None =
            Ok (Frame ["date"; "region"; "amount"]
                  [Row 0 [CStr "2024-01-01"; CStr "east"; CTime 10];
                   Row 1 [CStr "2024-01-01"; CStr "west"; CTime 5];
                   Row 2 [CStr "2024-01-02"; CStr "east"; CTime 7]])) as Hfd
    by (vm_compute; reflexivity).
  split; [exact Hnum|]. split; [exact Hdc|]. split; [exact Hfd|].
  refine (date_on_metric_raises iso_parser stable_sort sales
            (Controls "amount" "region" "amount" None 5 1) _
            Hnum eq_refl Hdc Hfd _).
  discriminate.
Defined.

Lemma series_total_witness :
  "date" ≠ "None" ∧
  "amount" ∈ numeric_cols sales ∧
  "date" ≠ "amount" ∧
  filter_table iso_parser sales "date" None = Ok sales_filtered ∧
  ∃ ts k,
    ts_df sales_filtered "date" "amount" = Ok ts ∧
    key_metrics sales_filtered "amount" = Ok k ∧
    Qcsum (ts.*2) = kpi_total k.
Proof.
  assert ("date" ≠ "None") as Hdc by discriminate.
  assert ("amount" ∈ numeric_cols sales) as Hvc by by_evaluation.
  assert ("date" ≠ "amount") as Hne by discriminate.
  assert (filter_table iso_parser sales "date" None = Ok sales_filtered)
    as Hfd by (vm_compute; reflexivity).
  split; [exact Hdc|]. split; [exact Hvc|]. split; [exact Hne|].
  split; [exact Hfd|].
  exact (series_total iso_parser sales "date" "amount" None sales_filtered
           Hdc Hvc Hne Hfd).
Defined.

Lemma series_plotted_witness :
  "amount" ∈ numeric_cols sales ∧
  "date" ≠ "None" ∧
  "date" ≠ "amount" ∧
  filter_table iso_parser sales "date" None = Ok sales_filtered ∧
  (2 ≤ length (distinct_dates sales_filtered "date"))%nat ∧
  ∃ ts,
    ts_df sales_filtered "date" "amount" = Ok ts ∧
    length ts = length (distinct_dates sales_filtered "date") ∧
    time_series_panel sales_filtered
      (Controls "amount" "region" "date" None 5 1) = Ok (SeriesPlot ts).
Proof.
  assert ("amount" ∈ numeric_cols sales) as Hvc by by_evaluation.
  assert ("date" ≠ "None") as Hdc by discriminate.
  assert ("date" ≠ "amount") as Hne by discriminate.
  assert (filter_table iso_parser sales "date" None = Ok sales_filtered)
    as Hfd by (vm_compute; reflexivity).
  assert (2 ≤ length (distinct_dates sales_filtered "date"))%nat as Hmany
    by (vm_compute; lia).
  split; [exact Hvc|]. split; [exact Hdc|]. split; [exact Hne|].
  split; [exact Hfd|]. split; [exact Hmany|].
  exact (series_plotted iso_parser sales
           (Controls "amount" "region" "date" None 5 1) sales_filtered
           Hvc Hdc Hne Hfd Hmany).
Defined.

Lemma page_sizes_witness :
  0 < 5 ∧
  1 ≤ 3 ≤ total_pages (length letters) 5 ∧
  (3 < total_pages (length letters) 5 →
     Z.of_nat (length (page_df letters 5 3)) = 5) ∧
  (3 = total_pages (length letters) 5 →
     Z.of_nat (length (page_df letters 5 3))
       = Z.of_nat (length letters)
         - (total_pages (length letters) 5 - 1) * 5 ∧
     1 ≤ Z.of_nat (length letters)
         - (total_pages (length letters) 5 - 1) * 5 ≤ 5).
Proof.
  assert (0 < 5) as HP by lia.
  assert (1 ≤ 3 ≤ total_pages (length letters) 5) as Hk by by_evaluation.
  split; [exact HP|]. split; [exact Hk|].
  exact (page_sizes letters 5 3 HP Hk).
Defined.

Lemma bar_panel_always_plots_witness :
  app iso_parser stable_sort (Some twelve)
      (Controls "qty" "item" "None" None 5 3) =
    Rendered
      (Dashboard
         (Kpis (Qc_of_Z 78) (Some (Q2Qc (13 # 2))) (Some (Qc_of_Z 12)))
         (SeriesNotice (Info "Select a date column to view time series."))
         (BarPlot [(CStr "k", Qc_of_Z 2); (CStr "l", Qc_of_Z 1)] 3 3)
         ((λ z, Some (Qc_of_Z z)) <$> [12; 11; 10; 9; 8; 7; 6; 5; 4; 3; 2; 1])) ∧
  ∃ t fd bar per_page shown,
    Some twelve = Some t ∧
    filter_table iso_parser t "None" None = Ok fd ∧
    bar_df stable_sort fd "item" "qty" = Ok bar ∧
    5 ≤ per_page ≤ 40 ∧
    per_page < Z.of_nat (length bar) ∧
    1 ≤ shown ≤ total_pages (length bar) per_page ∧
    BarPlot [(CStr "k", Qc_of_Z 2); (CStr "l", Qc_of_Z 1)] 3 3 =
      BarPlot (page_df bar per_page shown) shown
        (total_pages (length bar) per_page) ∧
    page_df bar per_page shown ≠ [] ∧
    ∃ x, Some x
           ∈ (λ z, Some (Qc_of_Z z)) <$> [12; 11; 10; 9; 8; 7; 6; 5; 4; 3; 2; 1].
Proof.
  assert (app iso_parser stable_sort (Some twelve)
            (Controls "qty" "item" "None" None 5 3) =
    Rendered
      (Dashboard
         (Kpis (Qc_of_Z 78) (Some (Q2Qc (13 # 2))) (Some (Qc_of_Z 12)))
         (SeriesNotice (Info "Select a date column to view time series."))
         (BarPlot [(CStr "k", Qc_of_Z 2); (CStr "l", Qc_of_Z 1)] 3 3)
         ((λ z, Some (Qc_of_Z z))
            <$> [12; 11; 10; 9; 8; 7; 6; 5; 4; 3; 2; 1]))) as Hd
    by by_evaluation.
  split; [exact Hd|].
  exact (bar_panel_always_plots iso_parser stable_sort (Some twelve)
           (Controls "qty" "item" "None" None 5 3) _ Hd).
Defined.

Lemma one_page_raises_witness :
  "amount" ∈ numeric_cols sales ∧
  "date" ≠ "amount" ∧
  filter_table iso_parser sales "date" None = Ok sales_filtered ∧
  rows sales_filtered ≠ [] ∧
  bar_df stable_sort sales_filtered "region" "amount"
    = Ok [(CStr "east", Qc_of_Z 17); (CStr "west", Qc_of_Z 5)] ∧
  slider 5 40 15 5 15 = Ok 15 ∧
  2 ≤ 15 ∧
  (∃ k s, key_metrics sales_filtered "amount" = Ok k ∧
          time_series_panel sales_filtered
            (Controls "amount" "region" "date" None 15 1) = Ok s) ∧
  ∃ msg, app iso_parser stable_sort (Some sales)
             (Controls "amount" "region" "date" None 15 1)
           = Crashed (StreamlitAPIException msg).
Proof.
  assert ("amount" ∈ numeric_cols sales) as Hvc by by_evaluation.
  assert ("date" ≠ "amount") as Hdv by discriminate.
  assert (filter_table iso_parser sales "date" None = Ok sales_filtered)
    as Hfd by (vm_compute; reflexivity).
  assert (rows sales_filtered ≠ []) as Hrows by discriminate.
  assert (bar_df stable_sort sales_filtered "region" "amount"
          = Ok [(CStr "east", Qc_of_Z 17); (CStr "west", Qc_of_Z 5)]) as Hbar
    by by_evaluation.
  assert (2 ≤ 15) as Hfit by lia.
  split; [exact Hvc|]. split; [exact Hdv|]. split; [exact Hfd|].
  split; [exact Hrows|]. split; [exact Hbar|]. split; [reflexivity|].
  split; [exact Hfit|].
  exact (one_page_raises iso_parser stable_sort sales
           (Controls "amount" "region" "date" None 15 1) sales_filtered
           [(CStr "east", Qc_of_Z 17); (CStr "west", Qc_of_Z 5)] 15
           Hvc Hdv Hfd Hrows Hbar eq_refl Hfit).
Defined.

Lemma kpi_max_spec_witness :
  key_metrics sales "amount" = Ok sales_kpis ∧
  ∃ j, col_index "amount" (columns sales) = Some j ∧
       let present := omap (number ∘ cell_at j) (rows sales) in
       (kpi_max sales_kpis = None ↔ present = []) ∧
       (∀ m, kpi_max sales_kpis = Some m ↔
             m ∈ present ∧ ∀ x, x ∈ present → (x ≤ m)%Qc) ∧
       (∀ t', columns t' = columns sales →
              rows t'
                ≡ₚ filter (λ r, isna (cell_at j r) = false) (rows sales) →
              ∃ k', key_metrics t' "amount" = Ok k' ∧
                    kpi_max k' = kpi_max sales_kpis).
Proof.
  assert (key_metrics sales "amount" = Ok sales_kpis) as Hk by by_evaluation.
  split; [exact Hk|].
  exact (kpi_max_spec sales "amount" sales_kpis Hk).
Defined.

Lemma pages_descend_witness :
  bar_df stable_sort twelve "item" "qty"
    = Ok (imap (λ k s, (CStr s, Qc_of_Z (12 - Z.of_nat k))) letters) ∧
  0 < 5 ∧
  1 ≤ 1 ∧
  StronglySorted (λ a b, (b.2 ≤ a.2)%Qc)
    (page_df (imap (λ k s, (CStr s, Qc_of_Z (12 - Z.of_nat k))) letters)
       5 1) ∧
  ∀ j x y, 1 < j →
    x ∈ page_df (imap (λ k s, (CStr s, Qc_of_Z (12 - Z.of_nat k))) letters)
          5 1 →
    y ∈ page_df (imap (λ k s, (CStr s, Qc_of_Z (12 - Z.of_nat k))) letters)
          5 j →
    (y.2 ≤ x.2)%Qc.
Proof.
  assert (bar_df stable_sort twelve "item" "qty"
          = Ok (imap (λ k s, (CStr s, Qc_of_Z (12 - Z.of_nat k))) letters))
    as Hbar by by_evaluation.
  assert (0 < 5) as HP by lia.
  assert (1 ≤ 1) as Hi by lia.
  split; [exact Hbar|]. split; [exact HP|]. split; [exact Hi|].
  exact (pages_descend stable_sort twelve "item" "qty" _ 5 1 Hbar HP Hi).
Defined.
